(** * serverless_musings: ARN decomposition and fleet DNS synchronisation

    A shallow embedding of [arntopia.py] (the identifier decomposer) and
    [manageFleetDNS.py] (the Lambda handler that keeps a Route53 host record in
    step with an autoscaling group), with the properties stated about them.

    Python code that can raise is embedded in a small state-and-exception
    monad: a computation takes a state, returns an outcome (a value or a
    raised exception) and the state it left behind.  For [breakDownARN] the
    state is the dictionary [retVal]; for the handler it is the log of the
    collaborator calls made and of the lines printed during the invocation. *)

From Stdlib Require Import String Ascii List Bool Arith Lia.
Import ListNotations.

Set Implicit Arguments.
Open Scope string_scope.
Open Scope list_scope.

(** ** Python exceptions and outcomes *)

(** The exceptions the two modules can meet.  [ClientError] stands for any
    error raised by a boto3 collaborator; [NonException] for a [BaseException]
    that is not an [Exception] (which [except Exception] lets through). *)
Inductive exn : Type :=
| IndexError
| KeyError (key : string)
| TypeError
| ValueError
| ClientError (msg : string)
| NonException (name : string).

Inductive outcome (A : Type) : Type :=
| Ok (a : A)
| Raise (e : exn).
Arguments Ok {A} a.
Arguments Raise {A} e.

(** [isinstance(e, Exception)] *)
Definition is_Exception (e : exn) : bool :=
  match e with
  | NonException _ => false
  | _ => true
  end.

(** ** The state-and-exception monad *)

Definition M (S A : Type) : Type := S -> outcome A * S.

Definition ret {S A} (a : A) : M S A := fun s => (Ok a, s).

Definition bind {S A B} (m : M S A) (k : A -> M S B) : M S B :=
  fun s =>
    match m s with
    | (Ok a, s') => k a s'
    | (Raise e, s') => (Raise e, s')
    end.

Definition raise {S A} (e : exn) : M S A := fun s => (Raise e, s).

Definition lift {S A} (o : outcome A) : M S A := fun s => (o, s).

Definition modify {S} (f : S -> S) : M S unit := fun s => (Ok tt, f s).

Definition get {S} : M S S := fun s => (Ok s, s).

Declare Scope py_scope.
Delimit Scope py_scope with py.
Notation "x <- m ;; k" := (bind m (fun x => k))
  (at level 61, m at next level, right associativity) : py_scope.
Notation "m ;;; k" := (bind m (fun _ => k))
  (at level 61, right associativity) : py_scope.
Open Scope py_scope.

(** [try: body  except: handler] with a bare [except], which catches
    everything. *)
Definition try_except_all {S A} (body : M S A) (handler : M S A) : M S A :=
  fun s =>
    match body s with
    | (Ok a, s') => (Ok a, s')
    | (Raise _, s') => handler s'
    end.

(** [try: body  except Exception as e: handler(e)]: only instances of
    [Exception] are caught. *)
Definition try_except_Exception {S A} (body : M S A) (handler : exn -> M S A)
  : M S A :=
  fun s =>
    match body s with
    | (Ok a, s') => (Ok a, s')
    | (Raise e, s') => if is_Exception e then handler e s' else (Raise e, s')
    end.

(** [try: body  finally: return v]: a [return] in the [finally] clause
    replaces the value of the body and discards an exception in flight. *)
Definition finally_return {S A B} (body : M S A) (v : B) : M S B :=
  fun s => let (_, s') := body s in (Ok v, s').

(** [for x in xs: acc.append(f(x))], where evaluating [f(x)] may raise: the
    loop stops at the first exception. *)
Fixpoint for_append {S A B} (xs : list A) (f : A -> M S B) (acc : list B)
  : M S (list B) :=
  match xs with
  | [] => ret acc
  | x :: xs' => v <- f x ;; for_append xs' f (acc ++ [v])
  end.

(** Sequencing of expressions that have no effect but may raise. *)
Definition and_then {A B} (o : outcome A) (k : A -> outcome B) : outcome B :=
  match o with
  | Ok a => k a
  | Raise e => Raise e
  end.
Notation "x <-- o ;; k" := (and_then o (fun x => k))
  (at level 61, o at next level, right associativity) : py_scope.

(** ** Python strings and lists *)

(** [s.replace(old, new)] for one-character [old] and [new]. *)
Fixpoint replace (old new : ascii) (s : string) : string :=
  match s with
  | EmptyString => EmptyString
  | String c s' =>
      String (if Ascii.eqb c old then new else c) (replace old new s')
  end.

(** [s.split(sep)] for a one-character separator: the result always has at
    least one element, and [sep] occurs in none of them. *)
Fixpoint split (sep : ascii) (s : string) : list string :=
  match s with
  | EmptyString => [EmptyString]
  | String c s' =>
      if Ascii.eqb c sep then EmptyString :: split sep s'
      else match split sep s' with
           | [] => [String c EmptyString]
           | p :: ps => String c p :: ps
           end
  end.

(** [xs[i]] for [i >= 0]. *)
Definition index {A} (xs : list A) (i : nat) : outcome A :=
  match nth_error xs i with
  | Some x => Ok x
  | None => Raise IndexError
  end.

(** [xs[-1]] *)
Definition index_last {A} (xs : list A) : outcome A :=
  index (rev xs) 0.

(** ** arntopia.py *)

Module Arntopia.

(** The dictionary [retVal]: its keys are fixed, a value is a string or
    [None]. *)
Record ArnFields : Type := mkArnFields {
  ARN : string;
  Partition : option string;
  Service : option string;
  Region : option string;
  AccountId : option string;
  ResourceType : option string;
  Resource : option string;
  Qualifier : option string
}.

Definition set_Partition (v : string) (r : ArnFields) : ArnFields :=
  mkArnFields (ARN r) (Some v) (Service r) (Region r) (AccountId r)
              (ResourceType r) (Resource r) (Qualifier r).
Definition set_Service (v : string) (r : ArnFields) : ArnFields :=
  mkArnFields (ARN r) (Partition r) (Some v) (Region r) (AccountId r)
              (ResourceType r) (Resource r) (Qualifier r).
Definition set_Region (v : string) (r : ArnFields) : ArnFields :=
  mkArnFields (ARN r) (Partition r) (Service r) (Some v) (AccountId r)
              (ResourceType r) (Resource r) (Qualifier r).
Definition set_AccountId (v : string) (r : ArnFields) : ArnFields :=
  mkArnFields (ARN r) (Partition r) (Service r) (Region r) (Some v)
              (ResourceType r) (Resource r) (Qualifier r).
Definition set_ResourceType (v : string) (r : ArnFields) : ArnFields :=
  mkArnFields (ARN r) (Partition r) (Service r) (Region r) (AccountId r)
              (Some v) (Resource r) (Qualifier r).
Definition set_Resource (v : string) (r : ArnFields) : ArnFields :=
  mkArnFields (ARN r) (Partition r) (Service r) (Region r) (AccountId r)
              (ResourceType r) (Some v) (Qualifier r).
Definition set_Qualifier (v : string) (r : ArnFields) : ArnFields :=
  mkArnFields (ARN r) (Partition r) (Service r) (Region r) (AccountId r)
              (ResourceType r) (Resource r) (Some v).

(** [retVal[key] = arnParts[i]]: the subscript is evaluated first, so an
    out-of-range [i] raises and leaves [retVal] as it was. *)
Definition assign (setter : string -> ArnFields -> ArnFields)
           (arnParts : list string) (i : nat) : M ArnFields unit :=
  v <- lift (index arnParts i) ;; modify (setter v).

(** [arn.replace("/", ":").split(":")] *)
Definition arnParts_of (arn : string) : list string :=
  split ":" (replace "/" ":" arn).

(** The body of the [try] block. *)
Definition try_block (arnParts : list string) : M ArnFields unit :=
  assign set_Partition arnParts 1 ;;;
  assign set_Service arnParts 2 ;;;
  assign set_Region arnParts 3 ;;;
  assign set_AccountId arnParts 4 ;;;
  (if Nat.eqb (List.length arnParts) 6
   then assign set_Resource arnParts 5
   else assign set_ResourceType arnParts 5 ;;;
        assign set_Resource arnParts 6) ;;;
  assign set_Qualifier arnParts 7.

(** [a == "literal"] where [a] is a string or [None]. *)
Definition opt_eqb (a : option string) (lit : string) : bool :=
  match a with
  | Some s => String.eqb s lit
  | None => false
  end.

(** The autoscaling-group override, which is outside the [try] block. *)
Definition autoscaling_override (arnParts : list string) : M ArnFields unit :=
  retVal <- get ;;
  if opt_eqb (Service retVal) "autoscaling"
     && opt_eqb (ResourceType retVal) "autoScalingGroup"
  then v <- lift (index_last arnParts) ;; modify (set_Qualifier v)
  else ret tt.

Definition breakDownParts (arnParts : list string) : M ArnFields unit :=
  try_except_all (try_block arnParts) (ret tt) ;;;
  autoscaling_override arnParts.

Definition breakDownARN (arn : string) : outcome ArnFields :=
  let retVal :=
    mkArnFields arn None None None None None None None in
  match breakDownParts (arnParts_of arn) retVal with
  | (Ok _, retVal') => Ok retVal'
  | (Raise e, _) => Raise e
  end.

Definition getResourceFromARN (arn : string) : outcome (option string) :=
  match breakDownARN arn with
  | Ok r => Ok (Resource r)
  | Raise e => Raise e
  end.

Definition getQualifierFromARN (arn : string) : outcome (option string) :=
  match breakDownARN arn with
  | Ok r => Ok (Qualifier r)
  | Raise e => Raise e
  end.

(** Whether the autoscaling-group override applies to a list of segments. *)
Definition is_autoscaling_group (parts : list string) : bool :=
  opt_eqb (nth_error parts 2) "autoscaling"
  && negb (Nat.eqb (List.length parts) 6)
  && opt_eqb (nth_error parts 5) "autoScalingGroup".

Definition getDynamoTableName (arn : string) : outcome (option string) :=
  getResourceFromARN arn.

Definition getLambdaFunctionName (arn : string) : outcome (option string) :=
  getResourceFromARN arn.

Definition getS3Bucket (arn : string) : outcome (option string) :=
  getResourceFromARN arn.

Definition getAutoscaleGroupName (arn : string) : outcome (option string) :=
  getQualifierFromARN arn.

(** [a + b] where [a] is a string and [b] a string or [None]: adding
    [None] to a string raises [TypeError]. *)
Definition str_add (a : string) (b : option string) : outcome string :=
  match b with
  | Some s => Ok (a ++ s)%string
  | None => Raise TypeError
  end.

(** Break down the parts of the ARN to generate the SQS queue URL.  The sum
    is evaluated from the left. *)
Definition getSqsQueueUrl (arn : string) : outcome string :=
  parts <-- breakDownARN arn ;;
  url <-- str_add "https://" (Service parts) ;;
  url <-- str_add url (Some ".") ;;
  url <-- str_add url (Region parts) ;;
  url <-- str_add url (Some ".amazonaws.com/") ;;
  url <-- str_add url (AccountId parts) ;;
  url <-- str_add url (Some "/") ;;
  url <-- str_add url (Resource parts) ;;
  Ok url.

Definition getSqsQueueName (arn : string) : outcome (option string) :=
  getResourceFromARN arn.

End Arntopia.

(** ** manageFleetDNS.py *)

Module ManageFleetDNS.

(** *** Values of the trigger event

    The event is what [json.loads] returns: [None], a bool, a number, a
    string, a list or a dict with string keys.  The handler only tests
    numbers for membership, subscripts them or compares them with a string,
    so a natural number stands for any number.  A dict is an association list read
    from the front. *)
#[warnings="-register-all"]
Inductive pyval : Type :=
| PNone
| PBool (b : bool)
| PNum (n : nat)
| PStr (s : string)
| PList (items : list pyval)
| PDict (entries : list (string * pyval)).

Fixpoint lookup (key : string) (entries : list (string * pyval))
  : option pyval :=
  match entries with
  | [] => None
  | (k, v) :: rest => if String.eqb k key then Some v else lookup key rest
  end.

(** [v == "literal"] *)
Definition py_eq_str (v : pyval) (lit : string) : bool :=
  match v with
  | PStr s => String.eqb s lit
  | _ => false
  end.

(** [needle in hay] for two strings: substring test. *)
Fixpoint contains (needle hay : string) : bool :=
  String.prefix needle hay
  || match hay with
     | EmptyString => false
     | String _ hay' => contains needle hay'
     end.

(** ["key" in v] *)
Definition py_in (key : string) (v : pyval) : outcome bool :=
  match v with
  | PDict entries =>
      Ok (match lookup key entries with Some _ => true | None => false end)
  | PStr s => Ok (contains key s)
  | PList items => Ok (existsb (fun x => py_eq_str x key) items)
  | PNone | PBool _ | PNum _ => Raise TypeError
  end.

(** [v["key"]] *)
Definition subscript (v : pyval) (key : string) : outcome pyval :=
  match v with
  | PDict entries =>
      match lookup key entries with
      | Some x => Ok x
      | None => Raise (KeyError key)
      end
  | _ => Raise TypeError
  end.

(** An address as [instance.public_ip_address] gives it: a string, or [None]
    for an instance without a public address. *)
Definition address : Type := option string.

Definition address_eqb (a b : address) : bool :=
  match a, b with
  | Some x, Some y => String.eqb x y
  | None, None => true
  | _, _ => false
  end.

(** [xs.remove(x)]: drops the first element equal to [x], raises
    [ValueError] when there is none. *)
Fixpoint list_remove (xs : list address) (x : address)
  : outcome (list address) :=
  match xs with
  | [] => Raise ValueError
  | y :: ys =>
      if address_eqb y x then Ok ys
      else ys' <-- list_remove ys x ;; Ok (y :: ys')
  end.

(** *** Collaborators: requests, responses and the log *)

(** One entry of [ResourceRecordSets] in the response of
    [list_resource_record_sets]. *)
Record RecordSetInfo : Type := mkRecordSetInfo {
  rs_Name : string;
  rs_Type : string;
  rs_ResourceRecords : list string
}.

(** The [ResourceRecordSet] that [setDNSRecord] sends. *)
Record ResourceRecord : Type := mkResourceRecord { Value : address }.

Record ResourceRecordSet : Type := mkResourceRecordSet {
  Name : option string;
  Type_ : string;
  TTL : nat;
  ResourceRecords : list ResourceRecord
}.

Record Change : Type := mkChange {
  Action : string;
  ChangeRecordSet : ResourceRecordSet
}.

Record ChangeBatch : Type := mkChangeBatch {
  Comment : string;
  Changes : list Change
}.

(** The response of [describe_auto_scaling_groups]. *)
Record Instance : Type := mkInstance { InstanceId : string }.
Record AutoScalingGroup : Type := mkAutoScalingGroup {
  Instances : list Instance
}.

Inductive call : Type :=
| ec2_Instance_load (instanceId : pyval)
| route53_list_resource_record_sets (HostedZoneId : option string)
| route53_change_resource_record_sets
    (HostedZoneId : option string) (batch : ChangeBatch)
| autoscaling_describe_auto_scaling_groups
    (AutoScalingGroupNames : list (option string))
| autoscaling_complete_lifecycle_action
    (LifecycleHookName : pyval) (AutoScalingGroupName : option string)
    (LifecycleActionResult : string) (instanceId : pyval).

Inductive status : Type :=
| Returned
| Raised (e : exn).

(** A printed line; [ExceptionLine e] is
    ["Error: An exception occured: " + str(e)]. *)
Inductive line : Type :=
| Text (s : string)
| ExceptionLine (e : exn).

Inductive entry : Type :=
| Call (c : call) (st : status)
| Printed (ln : line).

Definition log : Type := list entry.

(** The behaviour of the three services.  Every answer may depend on what
    happened earlier in the invocation, and every call may raise. *)
Record World : Type := mkWorld {
  public_ip_address : log -> pyval -> outcome address;
  list_resource_record_sets :
    log -> option string -> outcome (list RecordSetInfo);
  change_resource_record_sets :
    log -> option string -> ChangeBatch -> outcome unit;
  describe_auto_scaling_groups :
    log -> list (option string) -> outcome (list AutoScalingGroup);
  complete_lifecycle_action :
    log -> pyval -> option string -> string -> pyval -> outcome unit
}.

Definition status_of {A} (o : outcome A) : status :=
  match o with
  | Ok _ => Returned
  | Raise e => Raised e
  end.

(** Makes the call [c], whose answer after the log [l] is [answer l], and
    records it with its status. *)
Definition perform {A} (c : call) (answer : log -> outcome A) : M log A :=
  fun l => (answer l, l ++ [Call c (status_of (answer l))]).

Definition print (ln : line) : M log unit :=
  modify (fun l => l ++ [Printed ln]).

Section Handler.

(** The services the invocation talks to. *)
Variable w : World.

(** The module-level globals read from the environment; [os.environ.get]
    gives [None] for a variable that is not set. *)
Variables route53ZoneId hostRecordToMaintain autoscaleGroupName
  : option string.

(** Get the public IP address of the instance. *)
Definition getIPofInstance (instanceId : pyval) : M log address :=
  perform (ec2_Instance_load instanceId)
          (fun l => public_ip_address w l instanceId).

(** Tell the autoscaling api to continue the transition event for the
    instance. *)
Definition resumeAutoscaleTransition (autoscaleGroupName : option string)
           (autoscaleLifecycleHookName instanceId : pyval) : M log bool :=
  perform (autoscaling_complete_lifecycle_action
             autoscaleLifecycleHookName autoscaleGroupName "CONTINUE"
             instanceId)
          (fun l => complete_lifecycle_action w l autoscaleLifecycleHookName
                      autoscaleGroupName "CONTINUE" instanceId) ;;;
  ret true.

(** [recordSet["Name"] == hostRecordToMaintain and recordSet["Type"] == "A"] *)
Definition record_matches (hostRecordToMaintain : option string)
           (recordSet : RecordSetInfo) : bool :=
  address_eqb (Some (rs_Name recordSet)) hostRecordToMaintain
  && String.eqb (rs_Type recordSet) "A".

(** The first loop of [getIpAddressesFromRoute53Entry]: the last matching
    record set is left in [currentResourceRecordSet] ([None] stands for the
    variable not being bound). *)
Definition find_currentResourceRecordSet (hostRecordToMaintain : option string)
           (recordSets : list RecordSetInfo) : option RecordSetInfo :=
  fold_left (fun current recordSet =>
               if record_matches hostRecordToMaintain recordSet
               then Some recordSet else current)
            recordSets None.

(** [resourceRecord["Value"]] where [resourceRecord] is a key of the dict
    being iterated, a string: strings take no string subscript. *)
Definition key_subscript (resourceRecord key : string) : outcome address :=
  Raise TypeError.

(** Return the Route53 RecordSet for the IP addresses currently registered.
    The second loop iterates [resourceRecordSet], the dict bound to [{}]
    before the first loop, whose keys are its first components. *)
Definition getIpAddressesFromRoute53Entry
           (route53ZoneId hostRecordToMaintain : option string)
  : M log (list address) :=
  currentRecordSets <-
    perform (route53_list_resource_record_sets route53ZoneId)
            (fun l => list_resource_record_sets w l route53ZoneId) ;;
  let resourceRecordSet : list (string * pyval) := [] in
  let currentResourceRecordSet :=
    find_currentResourceRecordSet hostRecordToMaintain currentRecordSets in
  ipAddresses <-
    for_append (map fst resourceRecordSet)
               (fun resourceRecord => lift (key_subscript resourceRecord "Value"))
               [] ;;
  ret ipAddresses.

(** Set the Route53 RecordSet to the IP addresses provided. *)
Definition setDNSRecord (route53ZoneId hostRecordToMaintain : option string)
           (ipAddresses : list address) : M log unit :=
  let resourceRecords := map mkResourceRecord ipAddresses in
  let resourceRecordSet :=
    mkResourceRecordSet hostRecordToMaintain "A" 300 resourceRecords in
  let batch :=
    mkChangeBatch "Adding new host to group"
                  [mkChange "UPSERT" resourceRecordSet] in
  perform (route53_change_resource_record_sets route53ZoneId batch)
          (fun l => change_resource_record_sets w l route53ZoneId batch).

(** Assume the DNS record is compromised.  Rebuild it based on the current
    autoscaling group running. *)
Definition baselineIpAddressesInDNS
           (route53ZoneId hostRecordToMaintain autoscaleGroupName
            : option string) : M log string :=
  response <-
    perform (autoscaling_describe_auto_scaling_groups [autoscaleGroupName])
            (fun l => describe_auto_scaling_groups w l [autoscaleGroupName]) ;;
  group <- lift (index response 0) ;;
  ipAddresses <-
    for_append (Instances group)
               (fun instance => getIPofInstance (PStr (InstanceId instance)))
               [] ;;
  setDNSRecord route53ZoneId hostRecordToMaintain ipAddresses ;;;
  ret "".

(** The condition of the handler's [if]; [and] evaluates its right operand
    only when the left one is true. *)
Definition recognized (event : pyval) : outcome bool :=
  has_source <-- py_in "source" event ;;
  if negb has_source then Ok false else
  source <-- subscript event "source" ;;
  if negb (py_eq_str source "aws.autoscaling") then Ok false else
  detail_type <-- subscript event "detail-type" ;;
  if negb (py_eq_str detail_type "EC2 Instance-launch Lifecycle Action")
  then Ok false else
  detail <-- subscript event "detail" ;;
  py_in "EC2InstanceId" detail.

(** [event["detail"][key]] *)
Definition detail_field (event : pyval) (key : string) : outcome pyval :=
  detail <-- subscript event "detail" ;; subscript detail key.

(** The branch taken for a recognized event. *)
Definition lifecycle_branch (event : pyval) : M log unit :=
  instanceId <- lift (detail_field event "EC2InstanceId") ;;
  lifecycleTransition <- lift (detail_field event "LifecycleTransition") ;;
  autoscaleLifecycleHookName <-
    lift (detail_field event "LifecycleHookName") ;;
  newInstancePublicIP <- getIPofInstance instanceId ;;
  (if py_eq_str lifecycleTransition "autoscaling:EC2_INSTANCE_LAUNCHING" then
     ipAddresses <-
       getIpAddressesFromRoute53Entry route53ZoneId hostRecordToMaintain ;;
     let ipAddresses := ipAddresses ++ [newInstancePublicIP] in
     setDNSRecord route53ZoneId hostRecordToMaintain ipAddresses ;;;
     print (Text "Success: Host record updated to include the new instance public IP address.")
   else if py_eq_str lifecycleTransition
                     "autoscaling:EC2_INSTANCE_TERMINATING" then
     ipAddresses <-
       getIpAddressesFromRoute53Entry route53ZoneId hostRecordToMaintain ;;
     ipAddresses <- lift (list_remove ipAddresses newInstancePublicIP) ;;
     setDNSRecord route53ZoneId hostRecordToMaintain ipAddresses ;;;
     print (Text "Success: Host record updated to remove the retiring instance public IP address.")
   else
     print (Text "Error: No valid lifecycle transition identified.")) ;;;
  resumeAutoscaleTransition autoscaleGroupName autoscaleLifecycleHookName
                            instanceId ;;;
  ret tt.

(** The [else] branch: baseline reconciliation. *)
Definition baseline_branch : M log unit :=
  baselineIpAddressesInDNS route53ZoneId hostRecordToMaintain
                           autoscaleGroupName ;;;
  print (Text "Success: Host record reset with current instance public IP addresses for autoscale group.").

(** The body of the handler's [try]. *)
Definition handler_body (event : pyval) : M log unit :=
  is_lifecycle_event <- lift (recognized event) ;;
  if is_lifecycle_event then lifecycle_branch event else baseline_branch.

(** Main routine. *)
Definition lambda_handler (event context : pyval) : M log string :=
  finally_return
    (try_except_Exception (handler_body event)
                          (fun e => print (ExceptionLine e)))
    "".

End Handler.

(** *** What an invocation did, read off its log *)

(** The record sets sent to [change_resource_record_sets], in order. *)
Fixpoint written_record_sets (l : log) : list ResourceRecordSet :=
  match l with
  | [] => []
  | Call (route53_change_resource_record_sets _ batch) _ :: l' =>
      map ChangeRecordSet (Changes batch) ++ written_record_sets l'
  | _ :: l' => written_record_sets l'
  end.

(** The address lists of those record sets. *)
Definition written_addresses (l : log) : list (list address) :=
  map (fun rs => map Value (ResourceRecords rs)) (written_record_sets l).

(** The instances for which [complete_lifecycle_action] was called. *)
Fixpoint acknowledged (l : log) : list pyval :=
  match l with
  | [] => []
  | Call (autoscaling_complete_lifecycle_action _ _ _ i) _ :: l' =>
      i :: acknowledged l'
  | _ :: l' => acknowledged l'
  end.

(** The calls to [change_resource_record_sets] that raised. *)
Fixpoint failed_writes (l : log) : list exn :=
  match l with
  | [] => []
  | Call (route53_change_resource_record_sets _ _) (Raised e) :: l' =>
      e :: failed_writes l'
  | _ :: l' => failed_writes l'
  end.

(** Whether [describe_auto_scaling_groups] was called. *)
Definition listed_fleet (l : log) : bool :=
  existsb (fun x => match x with
                    | Call (autoscaling_describe_auto_scaling_groups _) _ =>
                        true
                    | _ => false
                    end) l.

(** The requests sent to [change_resource_record_sets], with their zone. *)
Definition written_changes (l : log) : list (option string * ChangeBatch) :=
  flat_map (fun x => match x with
                     | Call (route53_change_resource_record_sets z b) _ =>
                         [(z, b)]
                     | _ => []
                     end) l.

(** The arguments of the calls to [complete_lifecycle_action]: hook, group,
    result and instance. *)
Definition acknowledgments (l : log)
  : list (pyval * option string * string * pyval) :=
  flat_map (fun x => match x with
                     | Call (autoscaling_complete_lifecycle_action h g r i) _ =>
                         [(h, g, r, i)]
                     | _ => []
                     end) l.

(** The zones read with [list_resource_record_sets]. *)
Definition zone_reads (l : log) : list (option string) :=
  flat_map (fun x => match x with
                     | Call (route53_list_resource_record_sets z) _ => [z]
                     | _ => []
                     end) l.

(** The groups asked for with [describe_auto_scaling_groups]. *)
Definition fleet_listings (l : log) : list (list (option string)) :=
  flat_map (fun x => match x with
                     | Call (autoscaling_describe_auto_scaling_groups names) _ =>
                         [names]
                     | _ => []
                     end) l.

(** The collaborator calls of a log, without the printed lines. *)
Definition calls (l : log) : list call :=
  flat_map (fun x => match x with
                     | Call c _ => [c]
                     | Printed _ => []
                     end) l.

(** Whether an entry is an address lookup, and whether it is a printed
    line. *)
Definition is_lookup (x : entry) : bool :=
  match x with
  | Call (ec2_Instance_load _) _ => true
  | _ => false
  end.

Definition is_printed (x : entry) : bool :=
  match x with
  | Printed _ => true
  | Call _ _ => false
  end.

(** The request [setDNSRecord] builds for a host record and its
    addresses. *)
Definition upsert_of (host : option string) (ipAddresses : list address)
  : ChangeBatch :=
  mkChangeBatch
    "Adding new host to group"
    [mkChange "UPSERT"
              (mkResourceRecordSet host "A" 300
                                   (map mkResourceRecord ipAddresses))].

End ManageFleetDNS.

(** * Statements and example invocations *)

Module Statements.
Import Arntopia ManageFleetDNS.

(** C9 as it is worded: four segments are enough for all four of
    [Partition], [Service], [Region] and [AccountId] to be extracted. *)
Definition four_segments_give_four_fields : Prop :=
  forall arn,
    4 <= List.length (arnParts_of arn) ->
    exists r partition service region account,
      breakDownARN arn = Ok r
      /\ Partition r = Some partition
      /\ Service r = Some service
      /\ Region r = Some region
      /\ AccountId r = Some account.

(** The recognized shape in the words of the interface description: a
    tagged event whose [source] is [aws.autoscaling], whose [detail-type] is
    [EC2 Instance-launch Lifecycle Action] and whose [detail] payload
    contains [EC2InstanceId]. *)
Definition has_recognized_shape (event : pyval) : bool :=
  match event with
  | PDict entries =>
      match lookup "source" entries, lookup "detail-type" entries,
            lookup "detail" entries with
      | Some source, Some detail_type, Some (PDict detail) =>
          py_eq_str source "aws.autoscaling"
          && py_eq_str detail_type "EC2 Instance-launch Lifecycle Action"
          && match lookup "EC2InstanceId" detail with
             | Some _ => true
             | None => false
             end
      | _, _, _ => false
      end
  | _ => false
  end.

(** One invocation of the handler, starting from an empty log. *)
Definition invocation (w : World) (zone host group : option string)
           (event context : pyval) : outcome string * log :=
  lambda_handler w zone host group event context [].



(** C1 as it is worded: for a recognized event, a failed DNS write is still
    followed by an attempt to complete the lifecycle action. *)
Definition failed_write_still_acknowledged : Prop :=
  forall w zone host group event context,
    recognized event = Ok true ->
    failed_writes (snd (invocation w zone host group event context)) <> [] ->
    acknowledged (snd (invocation w zone host group event context)) <> [].

(** The events the handler's test rejects without raising, case by case:
    no [source] member; a [source] that is not [aws.autoscaling]; that
    source with a [detail-type] that is not the lifecycle action; both as
    expected with a [detail] that does not contain [EC2InstanceId]. *)
Inductive rejected_by_test (event : pyval) : Prop :=
| no_source_member :
    py_in "source" event = Ok false ->
    rejected_by_test event
| other_source (source : pyval) :
    py_in "source" event = Ok true ->
    subscript event "source" = Ok source ->
    py_eq_str source "aws.autoscaling" = false ->
    rejected_by_test event
| other_detail_type (source detail_type : pyval) :
    py_in "source" event = Ok true ->
    subscript event "source" = Ok source ->
    py_eq_str source "aws.autoscaling" = true ->
    subscript event "detail-type" = Ok detail_type ->
    py_eq_str detail_type "EC2 Instance-launch Lifecycle Action" = false ->
    rejected_by_test event
| no_instance_id (source detail_type detail : pyval) :
    py_in "source" event = Ok true ->
    subscript event "source" = Ok source ->
    py_eq_str source "aws.autoscaling" = true ->
    subscript event "detail-type" = Ok detail_type ->
    py_eq_str detail_type "EC2 Instance-launch Lifecycle Action" = true ->
    subscript event "detail" = Ok detail ->
    py_in "EC2InstanceId" detail = Ok false ->
    rejected_by_test event.

(** C5 as it is worded: for every event without the recognized shape, a
    fleet of two members has its two addresses written. *)
Definition shapeless_event_writes_fleet_addresses : Prop :=
  forall w zone host group event context M1 M2 A1 A2 others,
    has_recognized_shape event = false ->
    describe_auto_scaling_groups w [] [group]
    = Ok (mkAutoScalingGroup [mkInstance M1; mkInstance M2] :: others) ->
    (forall l, public_ip_address w l (PStr M1) = Ok A1) ->
    (forall l, public_ip_address w l (PStr M2) = Ok A2) ->
    written_addresses (snd (invocation w zone host group event context))
    = [[A1; A2]].

End Statements.

Module Examples.
Import ManageFleetDNS.

Definition zone : option string := Some "Z3EXAMPLE".
Definition host : option string := Some "fleet.example.com.".
Definition group : option string := Some "web-fleet".

(** A lifecycle event as CloudWatch delivers it. *)
Definition lifecycle_event (instance transition : string) : pyval :=
  PDict [("version", PStr "0");
         ("detail-type", PStr "EC2 Instance-launch Lifecycle Action");
         ("source", PStr "aws.autoscaling");
         ("detail",
          PDict [("LifecycleHookName", PStr "dns-hook");
                 ("LifecycleTransition", PStr transition);
                 ("EC2InstanceId", PStr instance)])].

Definition launching_event : pyval :=
  lifecycle_event "i-0aaa" "autoscaling:EC2_INSTANCE_LAUNCHING".
Definition terminating_event : pyval :=
  lifecycle_event "i-0aaa" "autoscaling:EC2_INSTANCE_TERMINATING".


(** A test invocation from the console. *)
Definition empty_event : pyval := PDict [].

(** Instance [i-0aaa] has address [203.0.113.10], [i-0bbb] has
    [203.0.113.11], any other instance has none. *)
Definition addresses (instanceId : pyval) : address :=
  if py_eq_str instanceId "i-0aaa" then Some "203.0.113.10"
  else if py_eq_str instanceId "i-0bbb" then Some "203.0.113.11"
  else None.

(** A zone that holds an [NS] record and the host's [A] record with the
    addresses [current]; a fleet with the instances [members]; a DNS write
    that answers [write]. *)
Definition fleet_world (current : list string) (members : list string)
           (write : outcome unit) : World :=
  mkWorld
    (fun _ instanceId => Ok (addresses instanceId))
    (fun _ _ =>
       Ok [mkRecordSetInfo "example.com." "NS" ["ns-1.example.net."];
           mkRecordSetInfo "fleet.example.com." "A" current])
    (fun _ _ _ => write)
    (fun _ _ => Ok [mkAutoScalingGroup (map mkInstance members)])
    (fun _ _ _ _ _ => Ok tt).

(** An event that names its source and its type, and has no detail. *)
Definition event_without_detail : pyval :=
  PDict [("source", PStr "aws.autoscaling");
         ("detail-type", PStr "EC2 Instance-launch Lifecycle Action")].


End Examples.

(** * Segments of an identifier *)

Module Segments.

(** Whether the character [c] is absent from [s]. *)
Fixpoint free_of (c : ascii) (s : string) : bool :=
  match s with
  | EmptyString => true
  | String c' s' => negb (Ascii.eqb c' c) && free_of c s'
  end.

(** A segment: a string with neither [:] nor [/] in it. *)
Definition is_segment (s : string) : bool :=
  free_of ":" s && free_of "/" s.

(** [sep.join(parts)] for a one-character separator. *)
Fixpoint join (sep : ascii) (parts : list string) : string :=
  match parts with
  | [] => EmptyString
  | [p] => p
  | p :: ps => (p ++ String sep (join sep ps))%string
  end.

(** The number of [:] and [/] in a string. *)
Fixpoint separators (s : string) : nat :=
  match s with
  | EmptyString => 0
  | String c s' =>
      (if Ascii.eqb c ":" || Ascii.eqb c "/" then 1 else 0) + separators s'
  end.

(** A field is [None] or holds a segment. *)
Definition segment_or_None (field : option string) : Prop :=
  match field with
  | Some p => is_segment p = true
  | None => True
  end.

End Segments.

(** * Properties of the identifier decomposer *)

Section ArntopiaFacts.
Import Arntopia Statements.

Lemma split_not_nil (sep : ascii) (s : string) : split sep s <> [].
Proof.
  induction s as [|c s IH]; simpl; [discriminate|].
  destruct (Ascii.eqb c sep); [discriminate|].
  destruct (split sep s); [contradiction | discriminate].
Qed.

Lemma index_last_cons {A} (x : A) (xs : list A) :
  exists v, index_last (x :: xs) = Ok v.
Proof.
  unfold index_last, index.
  destruct (rev (x :: xs)) as [|y ys] eqn:E.
  - apply (f_equal (@List.length A)) in E.
    rewrite length_rev in E. discriminate.
  - exists y. reflexivity.
Qed.

(** The override touches [Qualifier] only, and cannot raise on a list that
    has an element. *)
Lemma autoscaling_override_spec (p : string) (ps : list string) (r : ArnFields) :
  autoscaling_override (p :: ps) r
  = (Ok tt,
     mkArnFields (ARN r) (Partition r) (Service r) (Region r)
                 (AccountId r) (ResourceType r) (Resource r)
                 (if opt_eqb (Service r) "autoscaling"
                     && opt_eqb (ResourceType r) "autoScalingGroup"
                  then nth_error (rev (p :: ps)) 0
                  else Qualifier r)).
Proof.
  unfold autoscaling_override, bind, get.
  destruct (opt_eqb (Service r) "autoscaling"
            && opt_eqb (ResourceType r) "autoScalingGroup").
  - destruct (index_last_cons p ps) as [v Hv].
    rewrite Hv. unfold index_last, index in Hv.
    destruct (nth_error (rev (p :: ps)) 0); [|discriminate].
    injection Hv as ->. reflexivity.
  - destruct r; reflexivity.
Qed.

Ltac run_try_block :=
  unfold breakDownParts, bind, try_except_all;
  cbn [try_block assign bind lift modify index nth_error List.length
       Nat.eqb ret].

(** [breakDownARN] never raises, and every field of its result is a function
    of the segments: a field whose segment is missing stays [None]. *)
Lemma breakDownARN_fields (arn : string) :
  exists r,
    breakDownARN arn = Ok r
    /\ ARN r = arn
    /\ Partition r = nth_error (arnParts_of arn) 1
    /\ Service r = nth_error (arnParts_of arn) 2
    /\ Region r = nth_error (arnParts_of arn) 3
    /\ AccountId r = nth_error (arnParts_of arn) 4
    /\ ResourceType r =
         (if Nat.eqb (List.length (arnParts_of arn)) 6 then None
          else nth_error (arnParts_of arn) 5)
    /\ Resource r =
         (if Nat.eqb (List.length (arnParts_of arn)) 6
          then nth_error (arnParts_of arn) 5
          else nth_error (arnParts_of arn) 6)
    /\ Qualifier r =
         (if is_autoscaling_group (arnParts_of arn)
          then nth_error (rev (arnParts_of arn)) 0
          else nth_error (arnParts_of arn) 7).
Proof.
  unfold breakDownARN.
  generalize (arnParts_of arn) as parts.
  intros [|p0 [|p1 [|p2 [|p3 [|p4 [|p5 [|p6 [|p7 rest]]]]]]]].
  1: now (eexists; cbn; repeat split).
  all: run_try_block; rewrite autoscaling_override_spec.
  all: eexists; split; [reflexivity|].
  all: unfold is_autoscaling_group.
  all: cbn [ARN Partition Service Region AccountId ResourceType Resource
            Qualifier set_Partition set_Service set_Region set_AccountId
            set_ResourceType set_Resource set_Qualifier nth_error
            List.length Nat.eqb opt_eqb negb andb].
  all: rewrite ?andb_false_r, ?andb_true_r; repeat split; reflexivity.
Qed.

(** C8: an identifier that splits into exactly six segments has no
    [ResourceType] and its sixth segment as [Resource]; one with seven or
    more segments has its sixth segment as [ResourceType] and its seventh as
    [Resource]. *)
Theorem breakDownARN_resource_six_or_more (arn : string) :
  (List.length (arnParts_of arn) = 6 ->
   exists r seg6,
     breakDownARN arn = Ok r
     /\ nth_error (arnParts_of arn) 5 = Some seg6
     /\ ResourceType r = None
     /\ Resource r = Some seg6)
  /\ (7 <= List.length (arnParts_of arn) ->
      exists r seg6 seg7,
        breakDownARN arn = Ok r
        /\ nth_error (arnParts_of arn) 5 = Some seg6
        /\ nth_error (arnParts_of arn) 6 = Some seg7
        /\ ResourceType r = Some seg6
        /\ Resource r = Some seg7).
Proof.
  destruct (breakDownARN_fields arn)
    as (r & Hr & _ & _ & _ & _ & _ & Hty & Hres & _).
  split; intros Hlen.
  - rewrite Hlen in Hty, Hres. cbn [Nat.eqb] in Hty, Hres.
    destruct (nth_error (arnParts_of arn) 5) as [seg6|] eqn:E6.
    + exists r, seg6. repeat split; congruence.
    + apply nth_error_None in E6. lia.
  - destruct (Nat.eqb_spec (List.length (arnParts_of arn)) 6) as [E|_];
      [lia|].
    destruct (nth_error (arnParts_of arn) 5) as [seg6|] eqn:E6;
      [|apply nth_error_None in E6; lia].
    destruct (nth_error (arnParts_of arn) 6) as [seg7|] eqn:E7;
      [|apply nth_error_None in E7; lia].
    exists r, seg6, seg7. repeat split; congruence.
Qed.

Lemma breakDownARN_resource_six_or_more_witness :
  (List.length (arnParts_of "arn:aws:s3:::my-bucket") = 6
   /\ exists r seg6,
       breakDownARN "arn:aws:s3:::my-bucket" = Ok r
       /\ nth_error (arnParts_of "arn:aws:s3:::my-bucket") 5 = Some seg6
       /\ ResourceType r = None
       /\ Resource r = Some seg6)
  /\ (7 <= List.length
             (arnParts_of "arn:aws:dynamodb:us-east-1:123456789012:table/Books")
      /\ exists r seg6 seg7,
          breakDownARN "arn:aws:dynamodb:us-east-1:123456789012:table/Books"
          = Ok r
          /\ nth_error
               (arnParts_of
                  "arn:aws:dynamodb:us-east-1:123456789012:table/Books") 5
             = Some seg6
          /\ nth_error
               (arnParts_of
                  "arn:aws:dynamodb:us-east-1:123456789012:table/Books") 6
             = Some seg7
          /\ ResourceType r = Some seg6
          /\ Resource r = Some seg7).
Proof.
  split; split.
  - reflexivity.
  - apply (proj1 (breakDownARN_resource_six_or_more "arn:aws:s3:::my-bucket")).
    reflexivity.
  - vm_compute. lia.
  - apply (proj2 (breakDownARN_resource_six_or_more
                    "arn:aws:dynamodb:us-east-1:123456789012:table/Books")).
    vm_compute. lia.
Defined.

(** With exactly four segments the subscript [arnParts[4]] is out of range:
    [AccountId] stays [None], and the fields that are set are the second to
    fourth segments, not the first to third. *)
Lemma four_segments_leave_AccountId_unset :
  List.length (arnParts_of "arn:aws:s3:us-east-1") = 4
  /\ breakDownARN "arn:aws:s3:us-east-1"
     = Ok (mkArnFields "arn:aws:s3:us-east-1" (Some "aws") (Some "s3")
                       (Some "us-east-1") None None None None)
  /\ ~ four_segments_give_four_fields.
Proof.
  split; [reflexivity|]. split; [reflexivity|].
  intros H.
  destruct (H "arn:aws:s3:us-east-1") as (r & _ & _ & _ & a & Hr & _ & _ & _ & Ha).
  - vm_compute. lia.
  - vm_compute in Hr. injection Hr as <-. discriminate Ha.
Qed.

(** C9, amended: an identifier with at least five segments has
    [arnParts[1]] to [arnParts[4]] (its second to fifth segment) as
    [Partition], [Service], [Region] and [AccountId], and any identifier with
    the same first five segments has the same four fields, whatever its
    sixth and later segments are. *)
Theorem breakDownARN_leading_fields (arn : string) :
  5 <= List.length (arnParts_of arn) ->
  exists r partition service region account,
    breakDownARN arn = Ok r
    /\ nth_error (arnParts_of arn) 1 = Some partition
    /\ nth_error (arnParts_of arn) 2 = Some service
    /\ nth_error (arnParts_of arn) 3 = Some region
    /\ nth_error (arnParts_of arn) 4 = Some account
    /\ Partition r = Some partition
    /\ Service r = Some service
    /\ Region r = Some region
    /\ AccountId r = Some account
    /\ forall arn' r',
         firstn 5 (arnParts_of arn') = firstn 5 (arnParts_of arn) ->
         breakDownARN arn' = Ok r' ->
         Partition r' = Partition r /\ Service r' = Service r
         /\ Region r' = Region r /\ AccountId r' = AccountId r.
Proof.
  intros Hlen.
  destruct (breakDownARN_fields arn)
    as (r & Hr & _ & Hp & Hs & Hg & Ha & _).
  assert (Hsome : forall i, i < 5 ->
            exists x, nth_error (arnParts_of arn) i = Some x).
  { intros i Hi.
    destruct (nth_error (arnParts_of arn) i) as [x|] eqn:E; [now exists x|].
    apply nth_error_None in E. lia. }
  destruct (Hsome 1) as [partition E1]; [lia|].
  destruct (Hsome 2) as [service E2]; [lia|].
  destruct (Hsome 3) as [region E3]; [lia|].
  destruct (Hsome 4) as [account E4]; [lia|].
  exists r, partition, service, region, account.
  repeat split; try congruence.
  all: destruct (breakDownARN_fields arn')
         as (r2 & Hr2 & _ & Hp' & Hs' & Hg' & Ha' & _).
  all: assert (r' = r2) by congruence; subst r2.
  all: assert (Hfirst : forall i, i < 5 ->
                 nth_error (arnParts_of arn') i
                 = nth_error (arnParts_of arn) i)
         by (intros i Hi;
             generalize (nth_error_firstn 5 (arnParts_of arn') i),
                        (nth_error_firstn 5 (arnParts_of arn) i);
             destruct (Nat.ltb_spec i 5); [congruence | lia]).
  - rewrite Hp', Hp. apply Hfirst. lia.
  - rewrite Hs', Hs. apply Hfirst. lia.
  - rewrite Hg', Hg. apply Hfirst. lia.
  - rewrite Ha', Ha. apply Hfirst. lia.
Qed.

Lemma breakDownARN_leading_fields_witness :
  5 <= List.length (arnParts_of "arn:aws:sqs:eu-west-1:123456789012:jobs")
  /\ exists r partition service region account,
      breakDownARN "arn:aws:sqs:eu-west-1:123456789012:jobs" = Ok r
      /\ nth_error (arnParts_of "arn:aws:sqs:eu-west-1:123456789012:jobs") 1
         = Some partition
      /\ nth_error (arnParts_of "arn:aws:sqs:eu-west-1:123456789012:jobs") 2
         = Some service
      /\ nth_error (arnParts_of "arn:aws:sqs:eu-west-1:123456789012:jobs") 3
         = Some region
      /\ nth_error (arnParts_of "arn:aws:sqs:eu-west-1:123456789012:jobs") 4
         = Some account
      /\ Partition r = Some partition
      /\ Service r = Some service
      /\ Region r = Some region
      /\ AccountId r = Some account
      /\ forall arn' r',
           firstn 5 (arnParts_of arn')
           = firstn 5 (arnParts_of "arn:aws:sqs:eu-west-1:123456789012:jobs") ->
           breakDownARN arn' = Ok r' ->
           Partition r' = Partition r /\ Service r' = Service r
           /\ Region r' = Region r /\ AccountId r' = AccountId r.
Proof.
  split.
  - vm_compute. lia.
  - apply (breakDownARN_leading_fields
             "arn:aws:sqs:eu-west-1:123456789012:jobs").
    vm_compute. lia.
Defined.

(** C10: on a string that splits into fewer than two segments
    [breakDownARN] returns, and its result has the input as [ARN] and [None]
    in every other field. *)
Theorem breakDownARN_single_segment (arn : string) :
  List.length (arnParts_of arn) < 2 ->
  breakDownARN arn
  = Ok (mkArnFields arn None None None None None None None).
Proof.
  unfold breakDownARN.
  destruct (arnParts_of arn) as [|p0 [|p1 rest]]; cbn [List.length].
  - reflexivity.
  - reflexivity.
  - lia.
Qed.

Lemma breakDownARN_single_segment_witness :
  List.length (arnParts_of "my-bucket") < 2
  /\ breakDownARN "my-bucket"
     = Ok (mkArnFields "my-bucket" None None None None None None None).
Proof.
  split.
  - vm_compute. lia.
  - apply (breakDownARN_single_segment "my-bucket"). vm_compute. lia.
Defined.

End ArntopiaFacts.

(** ** Segments, separators and the accessors *)

Section SegmentFacts.
Import Arntopia Segments.

Lemma split_length (sep : ascii) (s : string) :
  List.length (split sep s)
  = S (List.length (filter (Ascii.eqb sep) (list_ascii_of_string s))).
Proof.
  induction s as [|c s IH]; [reflexivity|].
  cbn [split list_ascii_of_string filter].
  rewrite (Ascii.eqb_sym sep c).
  destruct (Ascii.eqb c sep).
  - cbn [List.length]. now rewrite IH.
  - destruct (split sep s) as [|p ps] eqn:E.
    + now destruct (split_not_nil sep s).
    + cbn [List.length] in *. exact IH.
Qed.

Lemma separators_replace (s : string) :
  List.length (filter (Ascii.eqb ":")
                      (list_ascii_of_string (replace "/" ":" s)))
  = separators s.
Proof.
  induction s as [|c s IH]; [reflexivity|].
  cbn [replace list_ascii_of_string filter separators].
  destruct (Ascii.eqb_spec c "/") as [->|Hslash].
  - cbn. now rewrite IH.
  - rewrite (Ascii.eqb_sym ":" c).
    destruct (Ascii.eqb c ":"); cbn; now rewrite IH.
Qed.

Lemma breakDownARN_never_raises_aux (arn : string) :
  exists r, breakDownARN arn = Ok r.
Proof.
  destruct (breakDownARN_fields arn) as (r & Hr & _). now exists r.
Qed.

(** X1: [breakDownARN] raises on no string, although the subscript
    [arnParts[-1]] of the override is outside the [try]; the [ARN] field of
    the result is the input as given. *)
Theorem breakDownARN_never_raises (arn : string) :
  exists r, breakDownARN arn = Ok r /\ ARN r = arn.
Proof.
  destruct (breakDownARN_fields arn) as (r & Hr & Harn & _).
  exists r. split; assumption.
Qed.

(** X2: the number of segments is one more than the number of [:] and [/]
    in the identifier. *)
Theorem arnParts_of_length (arn : string) :
  List.length (arnParts_of arn) = S (separators arn).
Proof.
  unfold arnParts_of.
  rewrite split_length, separators_replace. reflexivity.
Qed.

Lemma free_of_split_other (sep c : ascii) (s : string) :
  free_of c s = true ->
  Forall (fun p => free_of c p = true) (split sep s).
Proof.
  induction s as [|a s IH]; intros H.
  - repeat constructor.
  - cbn [free_of] in H. apply andb_true_iff in H as [Ha Hs].
    specialize (IH Hs). cbn [split].
    destruct (Ascii.eqb a sep).
    + constructor; [reflexivity | exact IH].
    + destruct (split sep s) as [|p ps].
      * repeat constructor. cbn. now rewrite Ha.
      * inversion IH as [|? ? Hp Hps]; subst.
        constructor; [|exact Hps]. cbn. now rewrite Ha, Hp.
Qed.

Lemma free_of_split_sep (sep : ascii) (s : string) :
  Forall (fun p => free_of sep p = true) (split sep s).
Proof.
  induction s as [|a s IH].
  - repeat constructor.
  - cbn [split]. destruct (Ascii.eqb a sep) eqn:E.
    + constructor; [reflexivity | exact IH].
    + destruct (split sep s) as [|p ps].
      * repeat constructor. cbn. now rewrite E.
      * inversion IH as [|? ? Hp Hps]; subst.
        constructor; [|exact Hps]. cbn. now rewrite E, Hp.
Qed.

Lemma free_of_replace (old new : ascii) (s : string) :
  old <> new -> free_of old (replace old new s) = true.
Proof.
  intros Hne. induction s as [|a s IH]; [reflexivity|].
  cbn [replace free_of]. rewrite IH, andb_true_r.
  destruct (Ascii.eqb_spec a old) as [->|Ha].
  - destruct (Ascii.eqb_spec new old); [congruence | reflexivity].
  - destruct (Ascii.eqb_spec a old); [contradiction | reflexivity].
Qed.

Lemma arnParts_of_segments (arn : string) :
  Forall (fun p => is_segment p = true) (arnParts_of arn).
Proof.
  unfold arnParts_of, is_segment.
  pose proof (free_of_split_sep ":" (replace "/" ":" arn)) as Hc.
  pose proof (free_of_split_other ":" "/" (replace "/" ":" arn)
                (@free_of_replace "/" ":" arn ltac:(discriminate))) as Hs.
  rewrite Forall_forall in *. intros p Hp.
  now rewrite (Hc p Hp), (Hs p Hp).
Qed.

Lemma nth_error_segment (parts : list string) (i : nat) :
  Forall (fun p => is_segment p = true) parts ->
  segment_or_None (nth_error parts i).
Proof.
  intros H. destruct (nth_error parts i) as [p|] eqn:E; [|exact I].
  rewrite Forall_forall in H. apply H. eapply nth_error_In, E.
Qed.

(** X3: whatever the input, no field that [breakDownARN] fills in (all but
    [ARN]) contains a [:] or a [/]. *)
Theorem breakDownARN_fields_hold_no_separator (arn : string) (r : ArnFields) :
  breakDownARN arn = Ok r ->
  segment_or_None (Partition r) /\ segment_or_None (Service r)
  /\ segment_or_None (Region r) /\ segment_or_None (AccountId r)
  /\ segment_or_None (ResourceType r) /\ segment_or_None (Resource r)
  /\ segment_or_None (Qualifier r).
Proof.
  intros Hr.
  destruct (breakDownARN_fields arn)
    as (r' & Hr' & _ & Hp & Hs & Hg & Ha & Ht & Hres & Hq).
  assert (r' = r) by congruence. subst r'.
  rewrite Hp, Hs, Hg, Ha, Ht, Hres, Hq.
  pose proof (arnParts_of_segments arn) as Hseg.
  assert (Hrev : Forall (fun p => is_segment p = true)
                        (rev (arnParts_of arn))).
  { rewrite Forall_forall in *. intros p Hin. apply Hseg.
    now apply in_rev. }
  destruct (Nat.eqb (List.length (arnParts_of arn)) 6),
           (is_autoscaling_group (arnParts_of arn));
    repeat split; try exact I; now apply nth_error_segment.
Qed.

Lemma breakDownARN_fields_hold_no_separator_witness :
  breakDownARN "arn:aws:dynamodb:us-east-1:123456789012:table/Books/stream"
  = Ok (mkArnFields
          "arn:aws:dynamodb:us-east-1:123456789012:table/Books/stream"
          (Some "aws") (Some "dynamodb") (Some "us-east-1")
          (Some "123456789012") (Some "table") (Some "Books")
          (Some "stream"))
  /\ segment_or_None (Some "aws") /\ segment_or_None (Some "dynamodb")
  /\ segment_or_None (Some "us-east-1")
  /\ segment_or_None (Some "123456789012")
  /\ segment_or_None (Some "table") /\ segment_or_None (Some "Books")
  /\ segment_or_None (Some "stream").
Proof.
  split; [reflexivity|].
  apply (@breakDownARN_fields_hold_no_separator
           "arn:aws:dynamodb:us-east-1:123456789012:table/Books/stream"
           (mkArnFields
              "arn:aws:dynamodb:us-east-1:123456789012:table/Books/stream"
              (Some "aws") (Some "dynamodb") (Some "us-east-1")
              (Some "123456789012") (Some "table") (Some "Books")
              (Some "stream"))).
  reflexivity.
Defined.

Lemma is_segment_cons (a : ascii) (p : string) :
  is_segment (String a p) = true ->
  Ascii.eqb a ":" = false /\ Ascii.eqb a "/" = false
  /\ is_segment p = true.
Proof.
  unfold is_segment. cbn [free_of]. intros H.
  apply andb_true_iff in H as [H1 H2].
  apply andb_true_iff in H1 as [H1 H1'].
  apply andb_true_iff in H2 as [H2 H2'].
  apply negb_true_iff in H1, H2.
  now rewrite H1' , H2'.
Qed.

Lemma arnParts_of_single (p : string) :
  is_segment p = true -> arnParts_of p = [p].
Proof.
  unfold arnParts_of.
  induction p as [|a p IH]; intros H; [reflexivity|].
  apply is_segment_cons in H as (Hc & Hs & Hp).
  cbn [replace split]. rewrite Hs, Hc, (IH Hp). reflexivity.
Qed.

Lemma arnParts_of_cons (p : string) (c : ascii) (rest : string) :
  is_segment p = true -> c = ":"%char \/ c = "/"%char ->
  arnParts_of (p ++ String c rest) = p :: arnParts_of rest.
Proof.
  unfold arnParts_of. intros H Hc.
  induction p as [|a p IH].
  - cbn [append replace split]. now destruct Hc as [-> | ->].
  - apply is_segment_cons in H as (Ha & Hs & Hp).
    cbn [append replace split]. rewrite Hs, Ha, (IH Hp). reflexivity.
Qed.

Lemma arnParts_of_slash (before after : string) :
  arnParts_of (before ++ String "/" after)
  = arnParts_of (before ++ String ":" after).
Proof.
  unfold arnParts_of. f_equal.
  induction before as [|a before IH]; [reflexivity|].
  cbn [append replace]. now rewrite IH.
Qed.

Lemma arnParts_of_join_segments (segs : list string) :
  segs <> [] ->
  Forall (fun p => is_segment p = true) segs ->
  arnParts_of (join ":" segs) = segs.
Proof.
  induction segs as [|p [|q segs] IH]; intros Hne Hall.
  - contradiction.
  - apply arnParts_of_single. now inversion Hall.
  - inversion Hall as [|? ? Hp Hrest]; subst.
    change (join ":" (p :: q :: segs))
      with (p ++ String ":" (join ":" (q :: segs)))%string.
    rewrite arnParts_of_cons by auto.
    rewrite IH by (auto; discriminate). reflexivity.
Qed.

(** X5: splitting undoes joining: the segments of [":".join(segs)] are
    [segs], when there is at least one and each is free of [:] and [/]. *)
Theorem arnParts_of_join (segs : list string) :
  segs <> [] ->
  Forall (fun p => is_segment p = true) segs ->
  arnParts_of (join ":" segs) = segs.
Proof.
  intros Hne Hall. now apply arnParts_of_join_segments.
Qed.

Lemma arnParts_of_join_witness :
  ["arn"; "aws"; "s3"; ""; ""; "my-bucket"] <> []
  /\ Forall (fun p => is_segment p = true)
            ["arn"; "aws"; "s3"; ""; ""; "my-bucket"]
  /\ join ":" ["arn"; "aws"; "s3"; ""; ""; "my-bucket"]
     = "arn:aws:s3:::my-bucket"
  /\ arnParts_of (join ":" ["arn"; "aws"; "s3"; ""; ""; "my-bucket"])
     = ["arn"; "aws"; "s3"; ""; ""; "my-bucket"].
Proof.
  split; [discriminate|].
  split; [repeat constructor|].
  split; [reflexivity|].
  apply (@arnParts_of_join ["arn"; "aws"; "s3"; ""; ""; "my-bucket"]).
  - discriminate.
  - repeat constructor.
Defined.

(** The result of [breakDownARN] is determined by its fields. *)
Lemma breakDownARN_eq (arn : string) (r : ArnFields) :
  breakDownARN arn = Ok r ->
  r = mkArnFields
        arn
        (nth_error (arnParts_of arn) 1) (nth_error (arnParts_of arn) 2)
        (nth_error (arnParts_of arn) 3) (nth_error (arnParts_of arn) 4)
        (if Nat.eqb (List.length (arnParts_of arn)) 6 then None
         else nth_error (arnParts_of arn) 5)
        (if Nat.eqb (List.length (arnParts_of arn)) 6
         then nth_error (arnParts_of arn) 5
         else nth_error (arnParts_of arn) 6)
        (if is_autoscaling_group (arnParts_of arn)
         then nth_error (rev (arnParts_of arn)) 0
         else nth_error (arnParts_of arn) 7).
Proof.
  intros Hr.
  destruct (breakDownARN_fields arn)
    as (r' & Hr' & H0 & H1 & H2 & H3 & H4 & H5 & H6 & H7).
  assert (r' = r) by congruence. subst r'.
  destruct r. cbn in *. congruence.
Qed.

Lemma breakDownARN_run (arn : string) :
  breakDownARN arn
  = Ok (mkArnFields
          arn
          (nth_error (arnParts_of arn) 1) (nth_error (arnParts_of arn) 2)
          (nth_error (arnParts_of arn) 3) (nth_error (arnParts_of arn) 4)
          (if Nat.eqb (List.length (arnParts_of arn)) 6 then None
           else nth_error (arnParts_of arn) 5)
          (if Nat.eqb (List.length (arnParts_of arn)) 6
           then nth_error (arnParts_of arn) 5
           else nth_error (arnParts_of arn) 6)
          (if is_autoscaling_group (arnParts_of arn)
           then nth_error (rev (arnParts_of arn)) 0
           else nth_error (arnParts_of arn) 7)).
Proof.
  destruct (breakDownARN_never_raises_aux arn) as [r Hr].
  rewrite Hr. f_equal. now apply breakDownARN_eq.
Qed.

(** X4: [/] separates segments exactly as [:] does: replacing one [/]
    of an identifier by [:] changes no field of the result but [ARN]. *)
Theorem breakDownARN_slash_as_colon (before after : string) :
  exists r r',
    breakDownARN (before ++ String "/" after) = Ok r
    /\ breakDownARN (before ++ String ":" after) = Ok r'
    /\ Partition r = Partition r' /\ Service r = Service r'
    /\ Region r = Region r' /\ AccountId r = AccountId r'
    /\ ResourceType r = ResourceType r' /\ Resource r = Resource r'
    /\ Qualifier r = Qualifier r'.
Proof.
  do 2 eexists.
  split; [apply breakDownARN_run|]. split; [apply breakDownARN_run|].
  cbn [Partition Service Region AccountId ResourceType Resource Qualifier].
  rewrite arnParts_of_slash. repeat split; reflexivity.
Qed.

(** X6: decomposing what was composed.  An identifier made of [arn] and
    six segments gives the six back as [Partition], [Service], [Region],
    [AccountId], [ResourceType] and [Resource], and one made of [arn] and
    five segments gives the fifth as [Resource], with no [ResourceType];
    [Qualifier] is set only for an autoscaling group, to the last segment. *)
Theorem breakDownARN_join
        (partition service region account rtype resource : string) :
  Forall (fun p => is_segment p = true)
         [partition; service; region; account; rtype; resource] ->
  breakDownARN
    (join ":" ["arn"; partition; service; region; account; rtype; resource])
  = Ok (mkArnFields
          (join ":" ["arn"; partition; service; region; account; rtype;
                     resource])
          (Some partition) (Some service) (Some region) (Some account)
          (Some rtype) (Some resource)
          (if String.eqb service "autoscaling"
              && String.eqb rtype "autoScalingGroup"
           then Some resource else None))
  /\ breakDownARN
       (join ":" ["arn"; partition; service; region; account; resource])
     = Ok (mkArnFields
             (join ":" ["arn"; partition; service; region; account;
                        resource])
             (Some partition) (Some service) (Some region) (Some account)
             None (Some resource) None).
Proof.
  intros Hall.
  assert (Hseg : forall p,
             In p [partition; service; region; account; rtype; resource] ->
             is_segment p = true)
    by (now apply Forall_forall).
  split; rewrite breakDownARN_run, arnParts_of_join_segments;
    try discriminate;
    try (repeat constructor; apply Hseg; cbn; tauto).
  - unfold is_autoscaling_group.
    cbn [nth_error List.length Nat.eqb negb opt_eqb rev app].
    now rewrite andb_true_r.
  - unfold is_autoscaling_group.
    cbn [nth_error List.length Nat.eqb negb opt_eqb rev app].
    now rewrite andb_false_r.
Qed.

Lemma breakDownARN_join_witness :
  Forall (fun p => is_segment p = true)
         ["aws"; "lambda"; "eu-west-1"; "123456789012"; "function";
          "resize"]
  /\ join ":" ["arn"; "aws"; "lambda"; "eu-west-1"; "123456789012";
               "function"; "resize"]
     = "arn:aws:lambda:eu-west-1:123456789012:function:resize"
  /\ breakDownARN
       (join ":" ["arn"; "aws"; "lambda"; "eu-west-1"; "123456789012";
                  "function"; "resize"])
     = Ok (mkArnFields
             (join ":" ["arn"; "aws"; "lambda"; "eu-west-1";
                        "123456789012"; "function"; "resize"])
             (Some "aws") (Some "lambda") (Some "eu-west-1")
             (Some "123456789012") (Some "function") (Some "resize")
             (if String.eqb "lambda" "autoscaling"
                 && String.eqb "function" "autoScalingGroup"
              then Some "resize" else None))
  /\ breakDownARN
       (join ":" ["arn"; "aws"; "lambda"; "eu-west-1"; "123456789012";
                  "resize"])
     = Ok (mkArnFields
             (join ":" ["arn"; "aws"; "lambda"; "eu-west-1";
                        "123456789012"; "resize"])
             (Some "aws") (Some "lambda") (Some "eu-west-1")
             (Some "123456789012") None (Some "resize") None).
Proof.
  split; [repeat constructor|].
  split; [reflexivity|].
  apply (@breakDownARN_join "aws" "lambda" "eu-west-1" "123456789012"
                            "function" "resize").
  repeat constructor.
Defined.

Lemma override_condition (arn : string) (r : ArnFields) :
  breakDownARN arn = Ok r ->
  opt_eqb (Service r) "autoscaling"
  && opt_eqb (ResourceType r) "autoScalingGroup"
  = is_autoscaling_group (arnParts_of arn).
Proof.
  intros Hr. rewrite (@breakDownARN_eq arn r Hr).
  unfold is_autoscaling_group. cbn [Service ResourceType].
  destruct (Nat.eqb (List.length (arnParts_of arn)) 6); cbn [negb opt_eqb].
  - now rewrite andb_false_r.
  - now rewrite andb_true_r.
Qed.

Lemma nth_error_rev_0 {A} (xs : list A) (d : A) :
  xs <> [] -> nth_error (rev xs) 0 = Some (last xs d).
Proof.
  intros Hne.
  rewrite (app_removelast_last d Hne) at 1.
  rewrite rev_app_distr. reflexivity.
Qed.

(** X7: for the identifier of an autoscaling group ([Service] is
    [autoscaling] and [ResourceType] is [autoScalingGroup]),
    [getAutoscaleGroupName] returns the last segment, however many segments
    come before it. *)
Theorem getAutoscaleGroupName_last_segment (arn : string) (r : ArnFields) :
  breakDownARN arn = Ok r ->
  Service r = Some "autoscaling" ->
  ResourceType r = Some "autoScalingGroup" ->
  getAutoscaleGroupName arn = Ok (Some (last (arnParts_of arn) ""))
  /\ Qualifier r = Some (last (arnParts_of arn) "").
Proof.
  intros Hr Hs Ht.
  pose proof (@override_condition arn r Hr) as Hc.
  rewrite Hs, Ht in Hc. cbn in Hc.
  unfold getAutoscaleGroupName, getQualifierFromARN.
  rewrite Hr. rewrite (@breakDownARN_eq arn r Hr). cbn [Qualifier].
  rewrite <- Hc.
  rewrite (@nth_error_rev_0 _ (arnParts_of arn) "")
    by apply split_not_nil.
  split; reflexivity.
Qed.

Lemma getAutoscaleGroupName_last_segment_witness :
  breakDownARN
    "arn:aws:autoscaling:us-east-1:123456789012:autoScalingGroup:0f2c-41aa:autoScalingGroupName/web-fleet"
  = Ok (mkArnFields
          "arn:aws:autoscaling:us-east-1:123456789012:autoScalingGroup:0f2c-41aa:autoScalingGroupName/web-fleet"
          (Some "aws") (Some "autoscaling") (Some "us-east-1")
          (Some "123456789012") (Some "autoScalingGroup")
          (Some "0f2c-41aa") (Some "web-fleet"))
  /\ getAutoscaleGroupName
       "arn:aws:autoscaling:us-east-1:123456789012:autoScalingGroup:0f2c-41aa:autoScalingGroupName/web-fleet"
     = Ok (Some (last
                   (arnParts_of
                      "arn:aws:autoscaling:us-east-1:123456789012:autoScalingGroup:0f2c-41aa:autoScalingGroupName/web-fleet")
                   ""))
  /\ Some "web-fleet"
     = Some (last
               (arnParts_of
                  "arn:aws:autoscaling:us-east-1:123456789012:autoScalingGroup:0f2c-41aa:autoScalingGroupName/web-fleet")
               "").
Proof.
  split; [reflexivity|].
  apply (@getAutoscaleGroupName_last_segment
           "arn:aws:autoscaling:us-east-1:123456789012:autoScalingGroup:0f2c-41aa:autoScalingGroupName/web-fleet"
           (mkArnFields
              "arn:aws:autoscaling:us-east-1:123456789012:autoScalingGroup:0f2c-41aa:autoScalingGroupName/web-fleet"
              (Some "aws") (Some "autoscaling") (Some "us-east-1")
              (Some "123456789012") (Some "autoScalingGroup")
              (Some "0f2c-41aa") (Some "web-fleet")));
    reflexivity.
Defined.

(** X8: for any other identifier [Qualifier] is the eighth segment, and
    [None] when there are fewer than eight. *)
Theorem getQualifierFromARN_eighth_segment (arn : string) (r : ArnFields) :
  breakDownARN arn = Ok r ->
  opt_eqb (Service r) "autoscaling"
  && opt_eqb (ResourceType r) "autoScalingGroup" = false ->
  getQualifierFromARN arn = Ok (nth_error (arnParts_of arn) 7)
  /\ (List.length (arnParts_of arn) < 8 ->
      getQualifierFromARN arn = Ok None).
Proof.
  intros Hr Hc.
  rewrite (@override_condition arn r Hr) in Hc.
  unfold getQualifierFromARN. rewrite Hr, (@breakDownARN_eq arn r Hr).
  cbn [Qualifier]. rewrite Hc.
  split; [reflexivity|].
  intros Hlen. f_equal. apply nth_error_None. lia.
Qed.

Lemma getQualifierFromARN_eighth_segment_witness :
  breakDownARN "arn:aws:lambda:eu-west-1:123456789012:function:resize:PROD"
  = Ok (mkArnFields
          "arn:aws:lambda:eu-west-1:123456789012:function:resize:PROD"
          (Some "aws") (Some "lambda") (Some "eu-west-1")
          (Some "123456789012") (Some "function") (Some "resize")
          (Some "PROD"))
  /\ opt_eqb (Some "lambda") "autoscaling"
     && opt_eqb (Some "function") "autoScalingGroup" = false
  /\ getQualifierFromARN
       "arn:aws:lambda:eu-west-1:123456789012:function:resize:PROD"
     = Ok (nth_error
             (arnParts_of
                "arn:aws:lambda:eu-west-1:123456789012:function:resize:PROD")
             7)
  /\ (List.length
        (arnParts_of
           "arn:aws:lambda:eu-west-1:123456789012:function:resize:PROD") < 8 ->
      getQualifierFromARN
        "arn:aws:lambda:eu-west-1:123456789012:function:resize:PROD"
      = Ok None).
Proof.
  split; [reflexivity|]. split; [reflexivity|].
  apply (@getQualifierFromARN_eighth_segment
           "arn:aws:lambda:eu-west-1:123456789012:function:resize:PROD"
           (mkArnFields
              "arn:aws:lambda:eu-west-1:123456789012:function:resize:PROD"
              (Some "aws") (Some "lambda") (Some "eu-west-1")
              (Some "123456789012") (Some "function") (Some "resize")
              (Some "PROD")));
    reflexivity.
Defined.

(** X9: [getResourceFromARN], and with it [getDynamoTableName],
    [getLambdaFunctionName], [getS3Bucket] and [getSqsQueueName], never
    raises; it returns [None] exactly when the identifier has fewer than six
    segments. *)
Theorem getResourceFromARN_None_iff (arn : string) :
  exists resource,
    getResourceFromARN arn = Ok resource
    /\ (resource = None <-> List.length (arnParts_of arn) < 6).
Proof.
  unfold getResourceFromARN. rewrite breakDownARN_run. cbn [Resource].
  eexists. split; [reflexivity|].
  destruct (Nat.eqb_spec (List.length (arnParts_of arn)) 6) as [E|E].
  - rewrite nth_error_None. lia.
  - rewrite nth_error_None. lia.
Qed.

Lemma append_assoc (a b c : string) :
  ((a ++ b) ++ c)%string = (a ++ (b ++ c))%string.
Proof.
  induction a as [|x a IH]; [reflexivity|].
  cbn [append]. now rewrite IH.
Qed.

(** X10: [getSqsQueueUrl] raises [TypeError] on every identifier with fewer
    than six segments: a field it concatenates is [None]. *)
Theorem getSqsQueueUrl_short_identifier (arn : string) :
  List.length (arnParts_of arn) < 6 ->
  getSqsQueueUrl arn = Raise TypeError.
Proof.
  intros Hlen.
  unfold getSqsQueueUrl. rewrite breakDownARN_run.
  cbn [and_then Service Region AccountId Resource].
  destruct (Nat.eqb_spec (List.length (arnParts_of arn)) 6) as [E|_];
    [lia|].
  assert (H6 : nth_error (arnParts_of arn) 6 = None)
    by (apply nth_error_None; lia).
  rewrite H6.
  destruct (nth_error (arnParts_of arn) 2); [|reflexivity].
  destruct (nth_error (arnParts_of arn) 3); [|reflexivity].
  destruct (nth_error (arnParts_of arn) 4); reflexivity.
Qed.

Lemma getSqsQueueUrl_short_identifier_witness :
  List.length (arnParts_of "arn:aws:sqs:eu-west-1:123456789012") < 6
  /\ getSqsQueueUrl "arn:aws:sqs:eu-west-1:123456789012" = Raise TypeError.
Proof.
  split.
  - vm_compute. lia.
  - apply (@getSqsQueueUrl_short_identifier
             "arn:aws:sqs:eu-west-1:123456789012").
    vm_compute. lia.
Defined.

(** X11: on an identifier with six segments or more [getSqsQueueUrl]
    returns [https://{Service}.{Region}.amazonaws.com/{AccountId}/{Resource}],
    built from the third, fourth and fifth segment and the resource (the
    sixth segment of six, the seventh otherwise). *)
Theorem getSqsQueueUrl_long_identifier (arn : string) :
  6 <= List.length (arnParts_of arn) ->
  exists service region account resource,
    nth_error (arnParts_of arn) 2 = Some service
    /\ nth_error (arnParts_of arn) 3 = Some region
    /\ nth_error (arnParts_of arn) 4 = Some account
    /\ nth_error (arnParts_of arn)
                 (if Nat.eqb (List.length (arnParts_of arn)) 6 then 5 else 6)
       = Some resource
    /\ getSqsQueueUrl arn
       = Ok ("https://" ++ service ++ "." ++ region ++ ".amazonaws.com/"
             ++ account ++ "/" ++ resource)%string.
Proof.
  intros Hlen.
  assert (Hsome : forall i, i < List.length (arnParts_of arn) ->
            exists x, nth_error (arnParts_of arn) i = Some x).
  { intros i Hi.
    destruct (nth_error (arnParts_of arn) i) as [x|] eqn:E; [now exists x|].
    apply nth_error_None in E. lia. }
  destruct (Hsome 2) as [service E2]; [lia|].
  destruct (Hsome 3) as [region E3]; [lia|].
  destruct (Hsome 4) as [account E4]; [lia|].
  assert (Hres : exists resource,
             nth_error (arnParts_of arn)
               (if Nat.eqb (List.length (arnParts_of arn)) 6 then 5 else 6)
             = Some resource).
  { destruct (Nat.eqb_spec (List.length (arnParts_of arn)) 6);
      apply Hsome; lia. }
  destruct Hres as [resource Eres].
  exists service, region, account, resource.
  repeat split; try assumption.
  unfold getSqsQueueUrl. rewrite breakDownARN_run.
  cbn [and_then Service Region AccountId Resource].
  rewrite E2, E3, E4.
  replace (if Nat.eqb (List.length (arnParts_of arn)) 6
           then nth_error (arnParts_of arn) 5
           else nth_error (arnParts_of arn) 6)
    with (Some resource)
    by (now destruct (Nat.eqb (List.length (arnParts_of arn)) 6)).
  cbn [str_add and_then]. f_equal.
  now rewrite !append_assoc.
Qed.

Lemma getSqsQueueUrl_long_identifier_witness :
  6 <= List.length (arnParts_of "arn:aws:sqs:eu-west-1:123456789012:jobs")
  /\ getSqsQueueUrl "arn:aws:sqs:eu-west-1:123456789012:jobs"
     = Ok "https://sqs.eu-west-1.amazonaws.com/123456789012/jobs"
  /\ exists service region account resource,
      nth_error (arnParts_of "arn:aws:sqs:eu-west-1:123456789012:jobs") 2
      = Some service
      /\ nth_error (arnParts_of "arn:aws:sqs:eu-west-1:123456789012:jobs") 3
         = Some region
      /\ nth_error (arnParts_of "arn:aws:sqs:eu-west-1:123456789012:jobs") 4
         = Some account
      /\ nth_error
           (arnParts_of "arn:aws:sqs:eu-west-1:123456789012:jobs")
           (if Nat.eqb
                 (List.length
                    (arnParts_of "arn:aws:sqs:eu-west-1:123456789012:jobs"))
                 6
            then 5 else 6)
         = Some resource
      /\ getSqsQueueUrl "arn:aws:sqs:eu-west-1:123456789012:jobs"
         = Ok ("https://" ++ service ++ "." ++ region ++ ".amazonaws.com/"
               ++ account ++ "/" ++ resource)%string.
Proof.
  split; [vm_compute; lia|].
  split; [reflexivity|].
  apply (@getSqsQueueUrl_long_identifier
           "arn:aws:sqs:eu-west-1:123456789012:jobs").
  vm_compute. lia.
Defined.

(** X12: [getS3Bucket] returns the bucket for the identifier of a bucket,
    [arn:aws:s3:::bucket].  For the identifier of an object,
    [arn:aws:s3:::bucket/key], whatever the key, it returns the first
    segment of the key (what precedes its first [/] or [:], the whole key
    when it has neither) and not the bucket, which is then the sixth of
    seven or more segments and ends up in [ResourceType]. *)
Theorem getS3Bucket_of_object (bucket key : string) :
  is_segment bucket = true ->
  getS3Bucket ("arn:aws:s3:::" ++ bucket) = Ok (Some bucket)
  /\ getS3Bucket ("arn:aws:s3:::" ++ bucket ++ String "/" key)
     = Ok (Some (hd "" (arnParts_of key)))
  /\ (is_segment key = true ->
      getS3Bucket ("arn:aws:s3:::" ++ bucket ++ String "/" key)
      = Ok (Some key))
  /\ exists r,
      breakDownARN ("arn:aws:s3:::" ++ bucket ++ String "/" key) = Ok r
      /\ ResourceType r = Some bucket.
Proof.
  intros Hb.
  assert (H6 : arnParts_of ("arn:aws:s3:::" ++ bucket)
               = ["arn"; "aws"; "s3"; ""; ""; bucket]).
  { change ("arn:aws:s3:::" ++ bucket)%string
      with (join ":" ["arn"; "aws"; "s3"; ""; ""; bucket]).
    apply arnParts_of_join_segments;
      [discriminate | repeat constructor; assumption]. }
  assert (H7 : arnParts_of ("arn:aws:s3:::" ++ bucket ++ String "/" key)
               = "arn" :: "aws" :: "s3" :: "" :: "" :: bucket
                 :: arnParts_of key).
  { change ("arn:aws:s3:::" ++ bucket ++ String "/" key)%string
      with ("arn" ++ String ":" ("aws" ++ String ":" ("s3" ++ String ":"
            ("" ++ String ":" ("" ++ String ":"
            (bucket ++ String "/" key))))))%string.
    now rewrite !arnParts_of_cons by (auto; reflexivity). }
  assert (Hobject :
            getS3Bucket ("arn:aws:s3:::" ++ bucket ++ String "/" key)
            = Ok (Some (hd "" (arnParts_of key)))
            /\ exists r,
                breakDownARN ("arn:aws:s3:::" ++ bucket ++ String "/" key)
                = Ok r
                /\ ResourceType r = Some bucket).
  { unfold getS3Bucket, getResourceFromARN.
    rewrite !breakDownARN_run, H7.
    destruct (arnParts_of key) as [|k ks] eqn:Ek.
    - now destruct (@split_not_nil ":" (replace "/" ":" key)).
    - cbn [Resource ResourceType List.length Nat.eqb nth_error hd].
      split; [reflexivity|]. eexists. split; reflexivity. }
  destruct Hobject as (Hkey & Htype).
  split.
  { unfold getS3Bucket, getResourceFromARN.
    now rewrite breakDownARN_run, H6. }
  split; [exact Hkey|].
  split; [|exact Htype].
  intros Hk. rewrite Hkey, (arnParts_of_single key Hk). reflexivity.
Qed.

Lemma getS3Bucket_of_object_witness :
  is_segment "photos" = true
  /\ getS3Bucket "arn:aws:s3:::photos/2020/cat.png" = Ok (Some "2020")
  /\ hd "" (arnParts_of "2020/cat.png") = "2020"
  /\ getS3Bucket ("arn:aws:s3:::" ++ "photos") = Ok (Some "photos")
  /\ getS3Bucket ("arn:aws:s3:::" ++ "photos" ++ String "/" "2020/cat.png")
     = Ok (Some (hd "" (arnParts_of "2020/cat.png")))
  /\ (is_segment "2020/cat.png" = true ->
      getS3Bucket
        ("arn:aws:s3:::" ++ "photos" ++ String "/" "2020/cat.png")
      = Ok (Some "2020/cat.png"))
  /\ exists r,
      breakDownARN
        ("arn:aws:s3:::" ++ "photos" ++ String "/" "2020/cat.png")
      = Ok r
      /\ ResourceType r = Some "photos".
Proof.
  split; [reflexivity|]. split; [reflexivity|]. split; [reflexivity|].
  apply (@getS3Bucket_of_object "photos" "2020/cat.png"); reflexivity.
Defined.

End SegmentFacts.

(** * Properties of the membership synchronizer *)

Section ManageFleetDNSFacts.
Import ManageFleetDNS Statements Examples.

(** Splits the goal on the next outcome or condition the code inspects. *)
Ltac branch :=
  match goal with
  | |- context [match ?o with Ok _ => _ | Raise _ => _ end] =>
      destruct o eqn:?
  | |- context [if ?b then _ else _] => destruct b eqn:?
  end.

Ltac simplify_run :=
  cbn [app snd fst failed_writes acknowledged written_record_sets
       written_addresses status_of for_append map key_subscript list_remove
       ret bind lift is_Exception index nth_error Instances InstanceId
       Changes ChangeRecordSet ResourceRecords Value].

Ltac unfold_handler :=
  unfold invocation, lambda_handler, finally_return, try_except_Exception,
    handler_body, lifecycle_branch, baseline_branch,
    baselineIpAddressesInDNS, getIpAddressesFromRoute53Entry, setDNSRecord,
    resumeAutoscaleTransition, getIPofInstance, perform, print, modify,
    bind, lift, ret.

(** C2: whatever record sets the zone holds, [getIpAddressesFromRoute53Entry]
    returns the empty list once [list_resource_record_sets] has answered:
    the addresses are collected from [resourceRecordSet], which is still the
    empty dict, and never from the record set that matched. *)
Theorem getIpAddressesFromRoute53Entry_returns_nothing
        (w : World) (zone host : option string) (l : log)
        (recordSets : list RecordSetInfo) :
  list_resource_record_sets w l zone = Ok recordSets ->
  getIpAddressesFromRoute53Entry w zone host l
  = (Ok [], l ++ [Call (route53_list_resource_record_sets zone) Returned]).
Proof.
  intros H.
  unfold getIpAddressesFromRoute53Entry, perform, bind.
  rewrite H. reflexivity.
Qed.

Lemma getIpAddressesFromRoute53Entry_returns_nothing_witness :
  list_resource_record_sets
    (fleet_world ["198.51.100.2"; "198.51.100.3"] [] (Ok tt)) [] Examples.zone
  = Ok [mkRecordSetInfo "example.com." "NS" ["ns-1.example.net."];
        mkRecordSetInfo "fleet.example.com." "A"
                        ["198.51.100.2"; "198.51.100.3"]]
  /\ find_currentResourceRecordSet Examples.host
       [mkRecordSetInfo "example.com." "NS" ["ns-1.example.net."];
        mkRecordSetInfo "fleet.example.com." "A"
                        ["198.51.100.2"; "198.51.100.3"]]
     = Some (mkRecordSetInfo "fleet.example.com." "A"
                             ["198.51.100.2"; "198.51.100.3"])
  /\ getIpAddressesFromRoute53Entry
       (fleet_world ["198.51.100.2"; "198.51.100.3"] [] (Ok tt))
       Examples.zone Examples.host []
     = (Ok [],
        [] ++ [Call (route53_list_resource_record_sets Examples.zone)
                    Returned]).
Proof.
  split; [reflexivity|]. split; [reflexivity|].
  apply (@getIpAddressesFromRoute53Entry_returns_nothing
           (fleet_world ["198.51.100.2"; "198.51.100.3"] [] (Ok tt))
           Examples.zone Examples.host []
           [mkRecordSetInfo "example.com." "NS" ["ns-1.example.net."];
            mkRecordSetInfo "fleet.example.com." "A"
                            ["198.51.100.2"; "198.51.100.3"]]).
  reflexivity.
Defined.

(** A [return] in a [finally] clause fixes the value of the whole
    statement. *)
Lemma finally_return_value {S A B} (body : M S A) (v : B) (s : S) :
  fst (finally_return body v s) = Ok v.
Proof.
  unfold finally_return. destruct (body s). reflexivity.
Qed.

(** C7: whatever the event and whatever the collaborators do,
    [lambda_handler] returns the empty string and raises nothing, from any
    log. *)
Theorem lambda_handler_always_returns_empty_string
        (w : World) (zone host group : option string)
        (event context : pyval) (l : log) :
  fst (lambda_handler w zone host group event context l) = Ok "".
Proof.
  unfold lambda_handler.
  apply finally_return_value.
Qed.

(** C1 as worded fails: when the DNS write of a [LAUNCHING] event raises,
    the exception leaves the [try] body before
    [resumeAutoscaleTransition] is reached. *)
Lemma failed_write_is_not_acknowledged : ~ failed_write_still_acknowledged.
Proof.
  intros H.
  apply (H (fleet_world ["198.51.100.3"] [] (Raise (ClientError "Throttling")))
           Examples.zone Examples.host Examples.group launching_event PNone).
  - reflexivity.
  - vm_compute. discriminate.
  - reflexivity.
Qed.

(** C1, amended: for a recognized event, an invocation in which the DNS
    write raised has made no call to complete the lifecycle action, and the
    handler still returns the empty string; and when the handler does call
    to complete the lifecycle action, no collaborator call before it raised,
    and only printed lines follow it. *)
Theorem dns_write_failure_skips_acknowledgment
        (w : World) (zone host group : option string)
        (event context : pyval) :
  recognized event = Ok true ->
  (failed_writes (snd (invocation w zone host group event context)) <> [] ->
   acknowledged (snd (invocation w zone host group event context)) = []
   /\ fst (invocation w zone host group event context) = Ok "")
  /\ (acknowledged (snd (invocation w zone host group event context)) <> [] ->
      exists before hook instanceId st after,
        snd (invocation w zone host group event context)
        = before
          ++ Call (autoscaling_complete_lifecycle_action
                     hook group "CONTINUE" instanceId) st
          :: after
        /\ acknowledged before = []
        /\ (forall c e, ~ In (Call c (Raised e)) before)
        /\ forallb is_printed after = true).
Proof.
  intros Hrec.
  split.
  - intros Hfailed.
    split; [|apply finally_return_value].
    revert Hfailed.
    unfold_handler. rewrite Hrec. simplify_run.
    repeat (branch; simplify_run); congruence.
  - unfold_handler. rewrite Hrec. simplify_run.
    repeat (branch; simplify_run);
      intros Hack; try (now destruct Hack).
    all: match goal with
         | |- exists before _ _ _ _, ?l = _ /\ _ =>
             first [ exists (removelast l); cbn [removelast];
                     do 4 eexists; split; [reflexivity|]
                   | exists (removelast (removelast l)); cbn [removelast];
                     do 4 eexists; split; [reflexivity|] ]
         end.
    all: split; [reflexivity|].
    all: split; [|reflexivity].
    all: intros c e' Hin; cbn [In] in Hin;
      repeat (destruct Hin as [Hin|Hin]; [discriminate Hin|]);
      exact Hin.
Qed.

Lemma dns_write_failure_skips_acknowledgment_witness :
  recognized launching_event = Ok true
  /\ failed_writes
       (snd (invocation
               (fleet_world ["198.51.100.3"] []
                            (Raise (ClientError "Throttling")))
               Examples.zone Examples.host Examples.group
               launching_event PNone))
     <> []
  /\ (acknowledged
        (snd (invocation
                (fleet_world ["198.51.100.3"] []
                             (Raise (ClientError "Throttling")))
                Examples.zone Examples.host Examples.group
                launching_event PNone))
      = []
      /\ fst (invocation
                (fleet_world ["198.51.100.3"] []
                             (Raise (ClientError "Throttling")))
                Examples.zone Examples.host Examples.group
                launching_event PNone)
         = Ok "")
  /\ acknowledged
       (snd (invocation
               (fleet_world ["198.51.100.3"] [] (Ok tt))
               Examples.zone Examples.host Examples.group
               launching_event PNone))
     <> []
  /\ exists before hook instanceId st after,
      snd (invocation
             (fleet_world ["198.51.100.3"] [] (Ok tt))
             Examples.zone Examples.host Examples.group
             launching_event PNone)
      = before
        ++ Call (autoscaling_complete_lifecycle_action
                   hook Examples.group "CONTINUE" instanceId) st
        :: after
      /\ acknowledged before = []
      /\ (forall c e, ~ In (Call c (Raised e)) before)
      /\ forallb is_printed after = true.
Proof.
  split; [reflexivity|].
  split; [vm_compute; discriminate|].
  split.
  - apply (proj1 (@dns_write_failure_skips_acknowledgment
                    (fleet_world ["198.51.100.3"] []
                                 (Raise (ClientError "Throttling")))
                    Examples.zone Examples.host Examples.group
                    launching_event PNone eq_refl)).
    vm_compute. discriminate.
  - split; [vm_compute; discriminate|].
    apply (proj2 (@dns_write_failure_skips_acknowledgment
                    (fleet_world ["198.51.100.3"] [] (Ok tt))
                    Examples.zone Examples.host Examples.group
                    launching_event PNone eq_refl)).
    vm_compute. discriminate.
Defined.

(** X23: when every step succeeds, the lifecycle action of a recognized
    [LAUNCHING] event is completed, and the record set written holds the new
    address alone. *)
Lemma launching_writes_new_address_alone
      (w : World) (zone host group : option string)
      (event context instanceId hook : pyval) (ip : address) :
  recognized event = Ok true ->
  detail_field event "EC2InstanceId" = Ok instanceId ->
  detail_field event "LifecycleTransition"
  = Ok (PStr "autoscaling:EC2_INSTANCE_LAUNCHING") ->
  detail_field event "LifecycleHookName" = Ok hook ->
  public_ip_address w [] instanceId = Ok ip ->
  (forall l z, exists sets, list_resource_record_sets w l z = Ok sets) ->
  written_addresses (snd (invocation w zone host group event context))
  = [[ip]].
Proof.
  intros Hrec Hid Htr Hhook Hip Hlist.
  unfold_handler. rewrite Hrec, Hid, Htr, Hhook, Hip. simplify_run.
  change (py_eq_str (PStr "autoscaling:EC2_INSTANCE_LAUNCHING")
                    "autoscaling:EC2_INSTANCE_LAUNCHING") with true.
  cbv iota.
  destruct (Hlist [Call (ec2_Instance_load instanceId) Returned] zone)
    as [sets ->].
  simplify_run.
  repeat (branch; simplify_run); reflexivity.
Qed.

(** X24: a recognized [TERMINATING] event never reaches the DNS write: the
    address list read is empty, so [remove] raises. *)
Lemma terminating_never_writes
      (w : World) (zone host group : option string)
      (event context : pyval) :
  recognized event = Ok true ->
  detail_field event "LifecycleTransition"
  = Ok (PStr "autoscaling:EC2_INSTANCE_TERMINATING") ->
  written_addresses (snd (invocation w zone host group event context)) = []
  /\ acknowledged (snd (invocation w zone host group event context)) = [].
Proof.
  intros Hrec Htr.
  unfold_handler. rewrite Hrec, Htr. simplify_run.
  change (py_eq_str (PStr "autoscaling:EC2_INSTANCE_TERMINATING")
                    "autoscaling:EC2_INSTANCE_LAUNCHING") with false.
  change (py_eq_str (PStr "autoscaling:EC2_INSTANCE_TERMINATING")
                    "autoscaling:EC2_INSTANCE_TERMINATING") with true.
  cbv iota.
  repeat (branch; simplify_run); split; reflexivity.
Qed.

(** C3: a [LAUNCHING] event for [i-0aaa], whose address is [203.0.113.10],
    on a record set holding [198.51.100.2] and [198.51.100.3]: the handler
    acknowledges the transition, but the record set it writes is
    [[203.0.113.10]], not the current list with the new address appended. *)
Theorem launching_drops_current_addresses :
  let run :=
    invocation (fleet_world ["198.51.100.2"; "198.51.100.3"] [] (Ok tt))
               Examples.zone Examples.host Examples.group
               launching_event PNone in
  written_addresses (snd run) = [[Some "203.0.113.10"]]
  /\ written_addresses (snd run)
     <> [[Some "198.51.100.2"; Some "198.51.100.3"; Some "203.0.113.10"]]
  /\ acknowledged (snd run) = [PStr "i-0aaa"].
Proof.
  cbv zeta.
  split; [reflexivity|].
  split; [vm_compute; discriminate | reflexivity].
Qed.

(** C4: a [TERMINATING] event for [i-0aaa], whose address is
    [203.0.113.10], on a record set holding [203.0.113.10] and
    [198.51.100.3]: the handler writes nothing; [remove] raises
    [ValueError] on the empty list read, and the transition is not
    acknowledged either. *)
Theorem terminating_writes_nothing :
  let run :=
    invocation (fleet_world ["203.0.113.10"; "198.51.100.3"] [] (Ok tt))
               Examples.zone Examples.host Examples.group
               terminating_event PNone in
  snd run
  = [Call (ec2_Instance_load (PStr "i-0aaa")) Returned;
     Call (route53_list_resource_record_sets Examples.zone) Returned;
     Printed (ExceptionLine ValueError)]
  /\ written_addresses (snd run) = []
  /\ written_addresses (snd run) <> [[Some "198.51.100.3"]]
  /\ acknowledged (snd run) = [].
Proof.
  cbv zeta.
  split; [reflexivity|].
  split; [reflexivity|].
  split; [vm_compute; discriminate | reflexivity].
Qed.

(** *** Baseline reconciliation *)





(** The four cases are the events on which the test evaluates to false. *)
Lemma rejected_by_test_spec (event : pyval) :
  rejected_by_test event <-> recognized event = Ok false.
Proof.
  unfold recognized, and_then. split.
  - intros [H1 | s H1 H2 H3 | s t H1 H2 H3 H4 H5
            | s t d H1 H2 H3 H4 H5 H6 H7].
    + now rewrite H1.
    + now rewrite H1, H2, H3.
    + now rewrite H1, H2, H3, H4, H5.
    + now rewrite H1, H2, H3, H4, H5, H6.
  - destruct (py_in "source" event) as [[|]|e] eqn:E1; cbn [negb];
      try discriminate.
    2: { intros _. now apply no_source_member. }
    destruct (subscript event "source") as [s|e] eqn:E2; try discriminate.
    destruct (py_eq_str s "aws.autoscaling") eqn:E3; cbn [negb].
    2: { intros _. now apply (@other_source event s). }
    destruct (subscript event "detail-type") as [t|e] eqn:E4;
      try discriminate.
    destruct (py_eq_str t "EC2 Instance-launch Lifecycle Action") eqn:E5;
      cbn [negb].
    2: { intros _. now apply (@other_detail_type event s t). }
    destruct (subscript event "detail") as [d|e] eqn:E6; try discriminate.
    intros E7. now apply (@no_instance_id event s t d).
Qed.

(** C5 as worded fails: an event that names its source and type and has no
    detail lacks the recognized shape, yet evaluating the test raises
    [KeyError]; the fleet's addresses are not written.  The same holds for
    an event that is [None]. *)
Lemma event_without_detail_writes_nothing :
  has_recognized_shape event_without_detail = false
  /\ invocation (fleet_world ["192.0.2.77"] ["i-0aaa"; "i-0bbb"] (Ok tt))
                Examples.zone Examples.host Examples.group
                event_without_detail PNone
     = (Ok "", [Printed (ExceptionLine (KeyError "detail"))])
  /\ invocation (fleet_world ["192.0.2.77"] ["i-0aaa"; "i-0bbb"] (Ok tt))
                Examples.zone Examples.host Examples.group PNone PNone
     = (Ok "", [Printed (ExceptionLine TypeError)])
  /\ ~ shapeless_event_writes_fleet_addresses.
Proof.
  split; [reflexivity|]. split; [reflexivity|]. split; [reflexivity|].
  intros H.
  specialize (H (fleet_world ["192.0.2.77"] ["i-0aaa"; "i-0bbb"] (Ok tt))
                Examples.zone Examples.host Examples.group
                event_without_detail PNone
                "i-0aaa" "i-0bbb" (Some "203.0.113.10")
                (Some "203.0.113.11") [] eq_refl eq_refl
                (fun _ => eq_refl) (fun _ => eq_refl)).
  vm_compute in H. discriminate H.
Qed.

(** C5, amended: when the handler's test rejects the event (one of the
    four cases of [rejected_by_test]) and the fleet has the members [M1]
    and [M2], with addresses [A1] and [A2], the handler lists the fleet,
    looks the two addresses up and sends one change: an [UPSERT], in the
    configured zone, of the [A] record of the configured host with exactly
    the addresses [A1; A2].  What the zone held before plays no part: the
    zone is not read.  Only printed lines follow the write. *)
Theorem baseline_writes_exactly_fleet_addresses
        (w : World) (zone host group : option string)
        (event context : pyval) (M1 M2 : string) (A1 A2 : address)
        (others : list AutoScalingGroup) :
  rejected_by_test event ->
  describe_auto_scaling_groups w [] [group]
  = Ok (mkAutoScalingGroup [mkInstance M1; mkInstance M2] :: others) ->
  (forall l, public_ip_address w l (PStr M1) = Ok A1) ->
  (forall l, public_ip_address w l (PStr M2) = Ok A2) ->
  written_record_sets (snd (invocation w zone host group event context))
  = [mkResourceRecordSet host "A" 300
                         [mkResourceRecord A1; mkResourceRecord A2]]
  /\ written_addresses (snd (invocation w zone host group event context))
     = [[A1; A2]]
  /\ (forall z st,
       ~ In (Call (route53_list_resource_record_sets z) st)
            (snd (invocation w zone host group event context)))
  /\ written_changes (snd (invocation w zone host group event context))
     = [(zone, upsert_of host [A1; A2])]
  /\ exists st prints,
      snd (invocation w zone host group event context)
      = [Call (autoscaling_describe_auto_scaling_groups [group]) Returned;
         Call (ec2_Instance_load (PStr M1)) Returned;
         Call (ec2_Instance_load (PStr M2)) Returned;
         Call (route53_change_resource_record_sets
                 zone (upsert_of host [A1; A2])) st]
        ++ prints
      /\ st = status_of
                (change_resource_record_sets
                   w
                   [Call (autoscaling_describe_auto_scaling_groups [group])
                         Returned;
                    Call (ec2_Instance_load (PStr M1)) Returned;
                    Call (ec2_Instance_load (PStr M2)) Returned]
                   zone (upsert_of host [A1; A2]))
      /\ forallb is_printed prints = true.
Proof.
  intros Hrej Hdesc H1 H2.
  apply rejected_by_test_spec in Hrej as Hrec.
  unfold written_addresses, written_changes, upsert_of.
  unfold_handler. rewrite Hrec, Hdesc. simplify_run.
  rewrite H1. simplify_run. rewrite H2. simplify_run.
  repeat (branch; simplify_run).
  all: split; [reflexivity|]; split; [reflexivity|].
  all: split;
    [intros z st Hin; cbn [In] in Hin; intuition discriminate|].
  all: split; [reflexivity|].
  all: do 2 eexists; split; [reflexivity|]; split; reflexivity.
Qed.

Lemma baseline_writes_exactly_fleet_addresses_witness :
  rejected_by_test empty_event
  /\ written_record_sets
       (snd (invocation
               (fleet_world ["192.0.2.77"] ["i-0aaa"; "i-0bbb"] (Ok tt))
               Examples.zone Examples.host Examples.group empty_event PNone))
     = [mkResourceRecordSet
          Examples.host "A" 300
          [mkResourceRecord (Some "203.0.113.10");
           mkResourceRecord (Some "203.0.113.11")]]
  /\ written_addresses
       (snd (invocation
               (fleet_world ["192.0.2.77"] ["i-0aaa"; "i-0bbb"] (Ok tt))
               Examples.zone Examples.host Examples.group empty_event PNone))
     = [[Some "203.0.113.10"; Some "203.0.113.11"]]
  /\ (forall z st,
       ~ In (Call (route53_list_resource_record_sets z) st)
            (snd (invocation
                    (fleet_world ["192.0.2.77"] ["i-0aaa"; "i-0bbb"] (Ok tt))
                    Examples.zone Examples.host Examples.group
                    empty_event PNone)))
  /\ written_changes
       (snd (invocation
               (fleet_world ["192.0.2.77"] ["i-0aaa"; "i-0bbb"] (Ok tt))
               Examples.zone Examples.host Examples.group empty_event PNone))
     = [(Examples.zone,
         upsert_of Examples.host
                   [Some "203.0.113.10"; Some "203.0.113.11"])]
  /\ exists st prints,
      snd (invocation
             (fleet_world ["192.0.2.77"] ["i-0aaa"; "i-0bbb"] (Ok tt))
             Examples.zone Examples.host Examples.group empty_event PNone)
      = [Call (autoscaling_describe_auto_scaling_groups [Examples.group])
              Returned;
         Call (ec2_Instance_load (PStr "i-0aaa")) Returned;
         Call (ec2_Instance_load (PStr "i-0bbb")) Returned;
         Call (route53_change_resource_record_sets
                 Examples.zone
                 (upsert_of Examples.host
                            [Some "203.0.113.10"; Some "203.0.113.11"])) st]
        ++ prints
      /\ st = status_of
                (change_resource_record_sets
                   (fleet_world ["192.0.2.77"] ["i-0aaa"; "i-0bbb"] (Ok tt))
                   [Call (autoscaling_describe_auto_scaling_groups
                            [Examples.group]) Returned;
                    Call (ec2_Instance_load (PStr "i-0aaa")) Returned;
                    Call (ec2_Instance_load (PStr "i-0bbb")) Returned]
                   Examples.zone
                   (upsert_of Examples.host
                              [Some "203.0.113.10"; Some "203.0.113.11"]))
      /\ forallb is_printed prints = true.
Proof.
  split; [apply no_source_member; reflexivity|].
  apply (@baseline_writes_exactly_fleet_addresses
           (fleet_world ["192.0.2.77"] ["i-0aaa"; "i-0bbb"] (Ok tt))
           Examples.zone Examples.host Examples.group empty_event PNone
           "i-0aaa" "i-0bbb" (Some "203.0.113.10") (Some "203.0.113.11") []).
  - apply no_source_member. reflexivity.
  - reflexivity.
  - intros l. reflexivity.
  - intros l. reflexivity.
Defined.

(** *** Routing *)

(** An event with the recognized shape passes the handler's test. *)
Lemma recognized_shape_is_recognized (event : pyval) :
  has_recognized_shape event = true -> recognized event = Ok true.
Proof.
  destruct event as [| | | |items|entries]; try discriminate.
  unfold has_recognized_shape, recognized, and_then, py_in, subscript.
  destruct (lookup "source" entries) as [source|]; [|discriminate].
  destruct (lookup "detail-type" entries) as [detail_type|]; [|discriminate].
  destruct (lookup "detail" entries) as [[| | | |items|detail]|];
    try discriminate.
  cbn [negb].
  destruct (py_eq_str source "aws.autoscaling"); [|discriminate].
  destruct (py_eq_str detail_type "EC2 Instance-launch Lifecycle Action");
    [|discriminate].
  cbn [negb andb].
  destruct (lookup "EC2InstanceId" detail); [reflexivity | discriminate].
Qed.

(** The events on which the test is false: no [source] member; or a
    [source] other than [aws.autoscaling]; or that source with another
    [detail-type]; or both as expected and a [detail] without
    [EC2InstanceId]. *)
Lemma recognized_false_cases (event : pyval) :
  recognized event = Ok false <->
  py_in "source" event = Ok false
  \/ (exists source,
        py_in "source" event = Ok true
        /\ subscript event "source" = Ok source
        /\ (py_eq_str source "aws.autoscaling" = false
            \/ exists detail_type,
                subscript event "detail-type" = Ok detail_type
                /\ (py_eq_str detail_type
                              "EC2 Instance-launch Lifecycle Action" = false
                    \/ exists detail,
                        subscript event "detail" = Ok detail
                        /\ py_in "EC2InstanceId" detail = Ok false))).
Proof.
  unfold recognized, and_then.
  destruct (py_in "source" event) as [[|]|e]; cbn [negb].
  2: { split; [now left | reflexivity]. }
  2: { split; [discriminate|]. intros [H|(x & H & _)]; discriminate. }
  destruct (subscript event "source") as [source|e].
  2: { split; [discriminate|].
       intros [H|(x & _ & H & _)]; discriminate. }
  destruct (py_eq_str source "aws.autoscaling") eqn:Esrc; cbn [negb].
  2: { split; [|reflexivity]. intros _. right. exists source. auto. }
  destruct (subscript event "detail-type") as [detail_type|e].
  2: { split; [discriminate|].
       intros [H|(x & _ & Hx & [H|(y & H & _)])]; try discriminate.
       injection Hx as <-. congruence. }
  destruct (py_eq_str detail_type "EC2 Instance-launch Lifecycle Action")
    eqn:Edt; cbn [negb].
  2: { split; [|reflexivity]. intros _. right. exists source.
       repeat split; auto. right. exists detail_type. auto. }
  destruct (subscript event "detail") as [detail|e].
  2: { split; [discriminate|].
       intros [H|(x & _ & Hx & [H|(y & Hy & [H|(d & H & _)])])];
         try discriminate.
       - injection Hx as <-. congruence.
       - injection Hy as <-. congruence. }
  split.
  - intros H. right. exists source. repeat split; auto.
    right. exists detail_type. split; auto.
    right. exists detail. auto.
  - intros [H|(x & _ & Hx & [H|(y & Hy & [H|(d & Hd & H)])])];
      try discriminate.
    + injection Hx as <-. congruence.
    + injection Hy as <-. congruence.
    + injection Hd as <-. exact H.
Qed.


End ManageFleetDNSFacts.

(** ** Every path of the handler *)

Section InvocationFacts.
Import ManageFleetDNS Statements Examples.

Ltac branch :=
  match goal with
  | |- context [match ?o with Ok _ => _ | Raise _ => _ end] =>
      destruct o eqn:?
  | |- context [if ?b then _ else _] => destruct b eqn:?
  end.

Ltac simplify_log :=
  cbn [app snd fst flat_map written_changes acknowledgments zone_reads
       fleet_listings calls status_of for_append map key_subscript
       list_remove ret bind lift is_Exception index nth_error Instances
       InstanceId].

Ltac unfold_handler :=
  unfold invocation, lambda_handler, finally_return, try_except_Exception,
    handler_body, lifecycle_branch, baseline_branch,
    baselineIpAddressesInDNS, getIpAddressesFromRoute53Entry, setDNSRecord,
    resumeAutoscaleTransition, getIPofInstance, perform, print, modify,
    bind, lift, ret.

(** The lookups of the baseline loop are all it adds to the log. *)
Lemma lookup_loop_log (w : World) (instances : list Instance) :
  forall (acc : list address) (l : log),
  exists res loads,
    for_append instances
               (fun instance =>
                  getIPofInstance w (PStr (InstanceId instance)))
               acc l
    = (res, l ++ loads)
    /\ forallb is_lookup loads = true.
Proof.
  induction instances as [|i instances IH]; intros acc l.
  - exists (Ok acc), []. cbn. now rewrite app_nil_r.
  - cbn [for_append]. unfold bind at 1, getIPofInstance at 1, perform.
    destruct (public_ip_address w l (PStr (InstanceId i))) as [a|e];
      cbn [status_of].
    + destruct (IH (acc ++ [a])
                   (l ++ [Call (ec2_Instance_load (PStr (InstanceId i)))
                               Returned]))
        as (res & loads & -> & Hloads).
      exists res,
        (Call (ec2_Instance_load (PStr (InstanceId i))) Returned :: loads).
      split; [now rewrite <- app_assoc | exact Hloads].
    + exists (Raise e),
        [Call (ec2_Instance_load (PStr (InstanceId i))) (Raised e)].
      split; reflexivity.
Qed.

(** The log of an invocation that takes the baseline branch: the listing
    of the fleet, the lookups, at most one write, then printed lines. *)
Lemma baseline_invocation_log
      (w : World) (zone host group : option string)
      (event context : pyval) :
  recognized event = Ok false ->
  exists st loads writes prints,
    snd (invocation w zone host group event context)
    = Call (autoscaling_describe_auto_scaling_groups [group]) st
      :: loads ++ writes ++ prints
    /\ forallb is_lookup loads = true
    /\ forallb is_printed prints = true
    /\ (writes = []
        \/ exists ips st',
            writes = [Call (route53_change_resource_record_sets
                              zone (upsert_of host ips)) st']).
Proof.
  intros Hrec.
  unfold invocation, lambda_handler, finally_return, try_except_Exception,
    handler_body, baseline_branch, baselineIpAddressesInDNS.
  unfold bind at 1, lift at 1. rewrite Hrec.
  unfold bind at 1. unfold bind at 1. unfold bind at 1. unfold perform at 1.
  cbn [app].
  destruct (describe_auto_scaling_groups w [] [group]) as [groups|e];
    cbn [status_of].
  2: { exists (Raised e), [], [],
         (if is_Exception e then [Printed (ExceptionLine e)] else []).
       destruct (is_Exception e); cbn; auto. }
  unfold bind at 1, lift at 1.
  destruct (index groups 0) as [g|e].
  2: { exists Returned, [], [],
         (if is_Exception e then [Printed (ExceptionLine e)] else []).
       destruct (is_Exception e); cbn; auto. }
  unfold bind at 1.
  destruct (lookup_loop_log
              w (Instances g) []
              [Call (autoscaling_describe_auto_scaling_groups [group])
                    Returned])
    as (res & loads & -> & Hloads).
  exists Returned, loads.
  destruct res as [ips|e].
  2: { exists [],
         (if is_Exception e then [Printed (ExceptionLine e)] else []).
       destruct (is_Exception e); cbn [snd print modify app is_printed
                                        forallb andb];
         rewrite ?app_nil_r; auto. }
  unfold bind, setDNSRecord, perform, print, modify, ret.
  fold (upsert_of host ips).
  destruct (change_resource_record_sets _ _ _ _) as [u|e];
    cbn [status_of snd].
  - exists [Call (route53_change_resource_record_sets
                    zone (upsert_of host ips)) Returned].
    eexists. split; [cbn [app]; rewrite <- !app_assoc; reflexivity|].
    repeat split; eauto.
  - exists [Call (route53_change_resource_record_sets
                    zone (upsert_of host ips)) (Raised e)],
      (if is_Exception e then [Printed (ExceptionLine e)] else []).
    destruct (is_Exception e); cbn [snd app is_printed forallb andb];
      rewrite <- ?app_assoc, ?app_nil_r; cbn [app];
      repeat split; eauto.
Qed.

Lemma lookups_read_nothing (l : log) :
  forallb is_lookup l = true ->
  written_changes l = [] /\ acknowledgments l = []
  /\ zone_reads l = [] /\ fleet_listings l = [].
Proof.
  induction l as [|x l IH]; intros H; [repeat split|].
  cbn [forallb] in H. apply andb_true_iff in H as [Hx Hl].
  destruct (IH Hl) as (H1 & H2 & H3 & H4).
  destruct x as [[] st|ln]; try discriminate.
  cbn [written_changes acknowledgments zone_reads fleet_listings flat_map
       app].
  repeat split; assumption.
Qed.

Lemma prints_read_nothing (l : log) :
  forallb is_printed l = true ->
  written_changes l = [] /\ acknowledgments l = []
  /\ zone_reads l = [] /\ fleet_listings l = [] /\ calls l = [].
Proof.
  induction l as [|x l IH]; intros H; [repeat split|].
  cbn [forallb] in H. apply andb_true_iff in H as [Hx Hl].
  destruct (IH Hl) as (H1 & H2 & H3 & H4 & H5).
  destruct x as [c st|ln]; try discriminate.
  cbn [written_changes acknowledgments zone_reads fleet_listings calls
       flat_map app].
  repeat split; assumption.
Qed.

Ltac read_baseline_log Hrec :=
  match goal with
  | |- context [invocation ?w ?zone ?host ?group ?event ?context] =>
      destruct (@baseline_invocation_log w zone host group event context Hrec)
        as (st & loads & writes & prints & Hlog & Hloads & Hprints & Hwrites);
      rewrite Hlog;
      destruct (lookups_read_nothing loads Hloads)
        as (Hl1 & Hl2 & Hl3 & Hl4);
      destruct (prints_read_nothing prints Hprints)
        as (Hp1 & Hp2 & Hp3 & Hp4 & Hp5)
  end.





(** X13: in any invocation, whatever the event and the collaborators, the
    handler sends at most one change to Route53, and that change is an
    [UPSERT] in the configured zone of the [A] record of the configured
    host, with a TTL of 300. *)
Theorem handler_writes_at_most_one_upsert
        (w : World) (zone host group : option string)
        (event context : pyval) :
  written_changes (snd (invocation w zone host group event context)) = []
  \/ exists ipAddresses,
      written_changes (snd (invocation w zone host group event context))
      = [(zone, upsert_of host ipAddresses)].
Proof.
  destruct (recognized event) as [[|]|e] eqn:Hrec.
  - unfold_handler. rewrite Hrec. simplify_log.
    repeat (branch; simplify_log);
      first [ left; reflexivity
            | match goal with
              | |- context [mkResourceRecordSet _ _ _ ?records] =>
                  right; exists (map Value records); reflexivity
              end ].
  - read_baseline_log Hrec.
    unfold written_changes in *.
    cbn [flat_map app]. rewrite !flat_map_app, Hl1, Hp1, app_nil_r.
    destruct Hwrites as [-> | (ips & st' & ->)];
      [left; reflexivity | right; exists ips; reflexivity].
  - left. unfold_handler. rewrite Hrec.
    destruct (is_Exception e); reflexivity.
Qed.

(** X14: in any invocation the handler completes at most one lifecycle
    action, and only for a recognized event: with the hook and the instance
    named in the event's detail, the configured group and the result
    [CONTINUE]. *)
Theorem handler_acknowledges_at_most_once
        (w : World) (zone host group : option string)
        (event context : pyval) :
  acknowledgments (snd (invocation w zone host group event context)) = []
  \/ exists hook instanceId,
      recognized event = Ok true
      /\ detail_field event "LifecycleHookName" = Ok hook
      /\ detail_field event "EC2InstanceId" = Ok instanceId
      /\ acknowledgments (snd (invocation w zone host group event context))
         = [(hook, group, "CONTINUE", instanceId)].
Proof.
  destruct (recognized event) as [[|]|e] eqn:Hrec.
  - unfold_handler. rewrite Hrec. simplify_log.
    repeat (branch; simplify_log);
      first [ left; reflexivity
            | right; do 2 eexists; repeat split; reflexivity ].
  - left. read_baseline_log Hrec.
    unfold acknowledgments in *.
    cbn [flat_map app]. rewrite !flat_map_app, Hl2, Hp2, app_nil_r.
    destruct Hwrites as [-> | (ips & st' & ->)]; reflexivity.
  - left. unfold_handler. rewrite Hrec.
    destruct (is_Exception e); reflexivity.
Qed.

(** X15: an invocation that takes the baseline branch lists the configured
    group once, never reads the zone and never completes a lifecycle
    action, whatever the collaborators answer. *)
Theorem baseline_reads_fleet_only
        (w : World) (zone host group : option string)
        (event context : pyval) :
  recognized event = Ok false ->
  fleet_listings (snd (invocation w zone host group event context))
  = [[group]]
  /\ zone_reads (snd (invocation w zone host group event context)) = []
  /\ acknowledgments (snd (invocation w zone host group event context))
     = [].
Proof.
  intros Hrec. read_baseline_log Hrec.
  unfold fleet_listings, zone_reads, acknowledgments in *.
  cbn [flat_map app].
  rewrite !flat_map_app, Hl2, Hl3, Hl4, Hp2, Hp3, Hp4.
  destruct Hwrites as [-> | (ips & st' & ->)]; repeat split; reflexivity.
Qed.

Lemma baseline_reads_fleet_only_witness :
  recognized empty_event = Ok false
  /\ fleet_listings
       (snd (invocation (fleet_world [] ["i-0aaa"] (Ok tt))
                        Examples.zone Examples.host Examples.group
                        empty_event PNone))
     = [[Examples.group]]
  /\ zone_reads
       (snd (invocation (fleet_world [] ["i-0aaa"] (Ok tt))
                        Examples.zone Examples.host Examples.group
                        empty_event PNone))
     = []
  /\ acknowledgments
       (snd (invocation (fleet_world [] ["i-0aaa"] (Ok tt))
                        Examples.zone Examples.host Examples.group
                        empty_event PNone))
     = [].
Proof.
  split; [reflexivity|].
  apply (@baseline_reads_fleet_only
           (fleet_world [] ["i-0aaa"] (Ok tt))
           Examples.zone Examples.host Examples.group empty_event PNone).
  reflexivity.
Defined.

(** X16: an invocation for a recognized event never lists the fleet, and
    reads the configured zone at most once. *)
Theorem lifecycle_event_never_lists_fleet
        (w : World) (zone host group : option string)
        (event context : pyval) :
  recognized event = Ok true ->
  fleet_listings (snd (invocation w zone host group event context)) = []
  /\ (zone_reads (snd (invocation w zone host group event context)) = []
      \/ zone_reads (snd (invocation w zone host group event context))
         = [zone]).
Proof.
  intros Hrec.
  unfold_handler. rewrite Hrec. simplify_log.
  repeat (branch; simplify_log); split; auto.
Qed.

Lemma lifecycle_event_never_lists_fleet_witness :
  recognized launching_event = Ok true
  /\ fleet_listings
       (snd (invocation (fleet_world [] ["i-0aaa"] (Ok tt))
                        Examples.zone Examples.host Examples.group
                        launching_event PNone))
     = []
  /\ (zone_reads
        (snd (invocation (fleet_world [] ["i-0aaa"] (Ok tt))
                         Examples.zone Examples.host Examples.group
                         launching_event PNone))
      = []
      \/ zone_reads
           (snd (invocation (fleet_world [] ["i-0aaa"] (Ok tt))
                            Examples.zone Examples.host Examples.group
                            launching_event PNone))
         = [Examples.zone]).
Proof.
  split; [reflexivity|].
  apply (@lifecycle_event_never_lists_fleet
           (fleet_world [] ["i-0aaa"] (Ok tt))
           Examples.zone Examples.host Examples.group launching_event PNone).
  reflexivity.
Defined.


(** X18: when [describe_auto_scaling_groups] answers with no group (the
    configured name matches none), the subscript [[0]] raises [IndexError]:
    the handler prints it and writes nothing. *)
Theorem baseline_without_group
        (w : World) (zone host group : option string)
        (event context : pyval) :
  recognized event = Ok false ->
  describe_auto_scaling_groups w [] [group] = Ok [] ->
  invocation w zone host group event context
  = (Ok "",
     [Call (autoscaling_describe_auto_scaling_groups [group]) Returned;
      Printed (ExceptionLine IndexError)]).
Proof.
  intros Hrec Hdesc.
  unfold_handler. rewrite Hrec, Hdesc. reflexivity.
Qed.

Lemma baseline_without_group_witness :
  recognized empty_event = Ok false
  /\ invocation
       (mkWorld (fun _ _ => Ok None) (fun _ _ => Ok [])
                (fun _ _ _ => Ok tt) (fun _ _ => Ok [])
                (fun _ _ _ _ _ => Ok tt))
       Examples.zone Examples.host Examples.group empty_event PNone
     = (Ok "",
        [Call (autoscaling_describe_auto_scaling_groups [Examples.group])
              Returned;
         Printed (ExceptionLine IndexError)]).
Proof.
  split; [reflexivity|].
  apply (@baseline_without_group
           (mkWorld (fun _ _ => Ok None) (fun _ _ => Ok [])
                    (fun _ _ _ => Ok tt) (fun _ _ => Ok [])
                    (fun _ _ _ _ _ => Ok tt))
           Examples.zone Examples.host Examples.group empty_event PNone);
    reflexivity.
Defined.

(** A loop over instances one of which cannot be looked up ends in an
    exception. *)
Lemma lookup_loop_raises (w : World) (i : Instance) (e : exn)
      (instances : list Instance) :
  In i instances ->
  (forall l, public_ip_address w l (PStr (InstanceId i)) = Raise e) ->
  forall (acc : list address) (l : log),
  exists e' loads,
    for_append instances
               (fun instance =>
                  getIPofInstance w (PStr (InstanceId instance)))
               acc l
    = (Raise e', l ++ loads)
    /\ forallb is_lookup loads = true.
Proof.
  intros Hin Hraise.
  induction instances as [|j instances IH]; intros acc l; [contradiction|].
  cbn [for_append]. unfold bind at 1, getIPofInstance at 1, perform.
  destruct (public_ip_address w l (PStr (InstanceId j))) as [a|e0] eqn:Ej;
    cbn [status_of].
  - destruct Hin as [-> | Hin]; [rewrite Hraise in Ej; discriminate|].
    destruct (IH Hin (acc ++ [a])
                 (l ++ [Call (ec2_Instance_load (PStr (InstanceId j)))
                             Returned]))
      as (e' & loads & -> & Hloads).
    exists e',
      (Call (ec2_Instance_load (PStr (InstanceId j))) Returned :: loads).
    split; [now rewrite <- app_assoc | exact Hloads].
  - exists e0,
      [Call (ec2_Instance_load (PStr (InstanceId j))) (Raised e0)].
    split; reflexivity.
Qed.

(** X19: baseline reconciliation is all or nothing: when the address of
    one member of the fleet cannot be looked up, no record set is written,
    not even for the members looked up before it. *)
Theorem baseline_lookup_failure_writes_nothing
        (w : World) (zone host group : option string)
        (event context : pyval) (instances : list Instance)
        (others : list AutoScalingGroup) (i : Instance) (e : exn) :
  recognized event = Ok false ->
  describe_auto_scaling_groups w [] [group]
  = Ok (mkAutoScalingGroup instances :: others) ->
  In i instances ->
  (forall l, public_ip_address w l (PStr (InstanceId i)) = Raise e) ->
  written_changes (snd (invocation w zone host group event context)) = [].
Proof.
  intros Hrec Hdesc Hin Hraise.
  unfold invocation, lambda_handler, finally_return, try_except_Exception,
    handler_body, baseline_branch, baselineIpAddressesInDNS.
  unfold bind at 1, lift at 1. rewrite Hrec.
  unfold bind at 1. unfold bind at 1. unfold bind at 1. unfold perform at 1.
  rewrite Hdesc. cbn [status_of app]. unfold bind at 1, lift at 1.
  cbn [index nth_error Instances]. unfold bind at 1.
  destruct (@lookup_loop_raises
              w i e instances Hin Hraise []
              [Call (autoscaling_describe_auto_scaling_groups [group])
                    Returned])
    as (e' & loads & -> & Hloads).
  destruct (lookups_read_nothing loads Hloads) as (Hl1 & _).
  unfold written_changes in *.
  destruct (is_Exception e'); cbn [snd print modify app flat_map];
    rewrite ?flat_map_app, Hl1; reflexivity.
Qed.

Lemma baseline_lookup_failure_writes_nothing_witness :
  recognized empty_event = Ok false
  /\ written_changes
       (snd (invocation
               (mkWorld
                  (fun _ instanceId =>
                     if py_eq_str instanceId "i-0bbb"
                     then Raise (ClientError "InvalidInstanceID.NotFound")
                     else Ok (addresses instanceId))
                  (fun _ _ => Ok [])
                  (fun _ _ _ => Ok tt)
                  (fun _ _ =>
                     Ok [mkAutoScalingGroup
                           [mkInstance "i-0aaa"; mkInstance "i-0bbb"]])
                  (fun _ _ _ _ _ => Ok tt))
               Examples.zone Examples.host Examples.group empty_event PNone))
     = [].
Proof.
  split; [reflexivity|].
  apply (@baseline_lookup_failure_writes_nothing
           (mkWorld
              (fun _ instanceId =>
                 if py_eq_str instanceId "i-0bbb"
                 then Raise (ClientError "InvalidInstanceID.NotFound")
                 else Ok (addresses instanceId))
              (fun _ _ => Ok [])
              (fun _ _ _ => Ok tt)
              (fun _ _ =>
                 Ok [mkAutoScalingGroup
                       [mkInstance "i-0aaa"; mkInstance "i-0bbb"]])
              (fun _ _ _ _ _ => Ok tt))
           Examples.zone Examples.host Examples.group empty_event PNone
           [mkInstance "i-0aaa"; mkInstance "i-0bbb"] []
           (mkInstance "i-0bbb")
           (ClientError "InvalidInstanceID.NotFound")).
  - reflexivity.
  - reflexivity.
  - right. left. reflexivity.
  - intros l. reflexivity.
Defined.

(** X20: for a recognized event whose transition is neither [LAUNCHING]
    nor [TERMINATING], once the address lookup has answered, the handler
    neither reads nor writes the zone and completes the lifecycle action. *)
Theorem unknown_transition_is_acknowledged
        (w : World) (zone host group : option string)
        (event context instanceId transition hook : pyval) (ip : address) :
  recognized event = Ok true ->
  detail_field event "EC2InstanceId" = Ok instanceId ->
  detail_field event "LifecycleTransition" = Ok transition ->
  detail_field event "LifecycleHookName" = Ok hook ->
  py_eq_str transition "autoscaling:EC2_INSTANCE_LAUNCHING" = false ->
  py_eq_str transition "autoscaling:EC2_INSTANCE_TERMINATING" = false ->
  public_ip_address w [] instanceId = Ok ip ->
  written_changes (snd (invocation w zone host group event context)) = []
  /\ zone_reads (snd (invocation w zone host group event context)) = []
  /\ acknowledgments (snd (invocation w zone host group event context))
     = [(hook, group, "CONTINUE", instanceId)].
Proof.
  intros Hrec Hid Htr Hhook Hl Ht Hip.
  unfold_handler. rewrite Hrec, Hid, Htr, Hhook, Hip, Hl, Ht. simplify_log.
  repeat (branch; simplify_log); repeat split; reflexivity.
Qed.

Lemma unknown_transition_is_acknowledged_witness :
  recognized (lifecycle_event "i-0aaa" "autoscaling:TEST_NOTIFICATION")
  = Ok true
  /\ written_changes
       (snd (invocation
               (fleet_world ["192.0.2.77"] [] (Ok tt))
               Examples.zone Examples.host Examples.group
               (lifecycle_event "i-0aaa" "autoscaling:TEST_NOTIFICATION")
               PNone))
     = []
  /\ zone_reads
       (snd (invocation
               (fleet_world ["192.0.2.77"] [] (Ok tt))
               Examples.zone Examples.host Examples.group
               (lifecycle_event "i-0aaa" "autoscaling:TEST_NOTIFICATION")
               PNone))
     = []
  /\ acknowledgments
       (snd (invocation
               (fleet_world ["192.0.2.77"] [] (Ok tt))
               Examples.zone Examples.host Examples.group
               (lifecycle_event "i-0aaa" "autoscaling:TEST_NOTIFICATION")
               PNone))
     = [(PStr "dns-hook", Examples.group, "CONTINUE", PStr "i-0aaa")].
Proof.
  split; [reflexivity|].
  apply (@unknown_transition_is_acknowledged
           (fleet_world ["192.0.2.77"] [] (Ok tt))
           Examples.zone Examples.host Examples.group
           (lifecycle_event "i-0aaa" "autoscaling:TEST_NOTIFICATION") PNone
           (PStr "i-0aaa") (PStr "autoscaling:TEST_NOTIFICATION")
           (PStr "dns-hook") (Some "203.0.113.10"));
    reflexivity.
Defined.

(** X21: the address is looked up before the transition is examined: when
    that lookup raises for a recognized event, it is the only call of the
    invocation, so no record set is written and no lifecycle action
    completed, whatever the transition. *)
Theorem lookup_failure_stops_lifecycle_event
        (w : World) (zone host group : option string)
        (event context instanceId transition hook : pyval) (e : exn) :
  recognized event = Ok true ->
  detail_field event "EC2InstanceId" = Ok instanceId ->
  detail_field event "LifecycleTransition" = Ok transition ->
  detail_field event "LifecycleHookName" = Ok hook ->
  public_ip_address w [] instanceId = Raise e ->
  calls (snd (invocation w zone host group event context))
  = [ec2_Instance_load instanceId]
  /\ fst (invocation w zone host group event context) = Ok "".
Proof.
  intros Hrec Hid Htr Hhook Hip.
  unfold_handler. rewrite Hrec, Hid, Htr, Hhook, Hip. simplify_log.
  destruct (is_Exception e); split; reflexivity.
Qed.

Lemma lookup_failure_stops_lifecycle_event_witness :
  recognized (lifecycle_event "i-0aaa" "autoscaling:TEST_NOTIFICATION")
  = Ok true
  /\ calls
       (snd (invocation
               (mkWorld
                  (fun _ _ => Raise (ClientError "RequestLimitExceeded"))
                  (fun _ _ => Ok []) (fun _ _ _ => Ok tt)
                  (fun _ _ => Ok []) (fun _ _ _ _ _ => Ok tt))
               Examples.zone Examples.host Examples.group
               (lifecycle_event "i-0aaa" "autoscaling:TEST_NOTIFICATION")
               PNone))
     = [ec2_Instance_load (PStr "i-0aaa")]
  /\ fst (invocation
            (mkWorld
               (fun _ _ => Raise (ClientError "RequestLimitExceeded"))
               (fun _ _ => Ok []) (fun _ _ _ => Ok tt)
               (fun _ _ => Ok []) (fun _ _ _ _ _ => Ok tt))
            Examples.zone Examples.host Examples.group
            (lifecycle_event "i-0aaa" "autoscaling:TEST_NOTIFICATION")
            PNone)
     = Ok "".
Proof.
  split; [reflexivity|].
  apply (@lookup_failure_stops_lifecycle_event
           (mkWorld
              (fun _ _ => Raise (ClientError "RequestLimitExceeded"))
              (fun _ _ => Ok []) (fun _ _ _ => Ok tt)
              (fun _ _ => Ok []) (fun _ _ _ _ _ => Ok tt))
           Examples.zone Examples.host Examples.group
           (lifecycle_event "i-0aaa" "autoscaling:TEST_NOTIFICATION") PNone
           (PStr "i-0aaa") (PStr "autoscaling:TEST_NOTIFICATION")
           (PStr "dns-hook") (ClientError "RequestLimitExceeded"));
    reflexivity.
Defined.

(** X22: when the detail of a recognized event lacks the instance id, the
    transition or the hook name, the subscript raises before any
    collaborator is called: the invocation makes no call at all and still
    returns the empty string. *)
Theorem missing_detail_field_calls_nothing
        (w : World) (zone host group : option string)
        (event context : pyval) (e : exn) :
  recognized event = Ok true ->
  detail_field event "EC2InstanceId" = Raise e
  \/ detail_field event "LifecycleTransition" = Raise e
  \/ detail_field event "LifecycleHookName" = Raise e ->
  calls (snd (invocation w zone host group event context)) = []
  /\ fst (invocation w zone host group event context) = Ok "".
Proof.
  intros Hrec Hmissing.
  unfold_handler. rewrite Hrec. simplify_log.
  destruct (detail_field event "EC2InstanceId") as [i|e1].
  2: { destruct (is_Exception e1); split; reflexivity. }
  destruct (detail_field event "LifecycleTransition") as [t|e2].
  2: { destruct (is_Exception e2); split; reflexivity. }
  destruct (detail_field event "LifecycleHookName") as [h|e3].
  2: { destruct (is_Exception e3); split; reflexivity. }
  destruct Hmissing as [H|[H|H]]; discriminate H.
Qed.

Lemma missing_detail_field_calls_nothing_witness :
  recognized
    (PDict [("source", PStr "aws.autoscaling");
            ("detail-type", PStr "EC2 Instance-launch Lifecycle Action");
            ("detail",
             PDict [("EC2InstanceId", PStr "i-0aaa");
                    ("LifecycleTransition",
                     PStr "autoscaling:EC2_INSTANCE_LAUNCHING")])])
  = Ok true
  /\ calls
       (snd (invocation
               (fleet_world ["192.0.2.77"] [] (Ok tt))
               Examples.zone Examples.host Examples.group
               (PDict [("source", PStr "aws.autoscaling");
                       ("detail-type",
                        PStr "EC2 Instance-launch Lifecycle Action");
                       ("detail",
                        PDict [("EC2InstanceId", PStr "i-0aaa");
                               ("LifecycleTransition",
                                PStr "autoscaling:EC2_INSTANCE_LAUNCHING")])])
               PNone))
     = []
  /\ fst (invocation
            (fleet_world ["192.0.2.77"] [] (Ok tt))
            Examples.zone Examples.host Examples.group
            (PDict [("source", PStr "aws.autoscaling");
                    ("detail-type",
                     PStr "EC2 Instance-launch Lifecycle Action");
                    ("detail",
                     PDict [("EC2InstanceId", PStr "i-0aaa");
                            ("LifecycleTransition",
                             PStr "autoscaling:EC2_INSTANCE_LAUNCHING")])])
            PNone)
     = Ok "".
Proof.
  split; [reflexivity|].
  apply (@missing_detail_field_calls_nothing
           (fleet_world ["192.0.2.77"] [] (Ok tt))
           Examples.zone Examples.host Examples.group
           (PDict [("source", PStr "aws.autoscaling");
                   ("detail-type",
                    PStr "EC2 Instance-launch Lifecycle Action");
                   ("detail",
                    PDict [("EC2InstanceId", PStr "i-0aaa");
                           ("LifecycleTransition",
                            PStr "autoscaling:EC2_INSTANCE_LAUNCHING")])])
           PNone (KeyError "LifecycleHookName")).
  - reflexivity.
  - right. right. reflexivity.
Defined.

Lemma launching_writes_new_address_alone_witness :
  recognized launching_event = Ok true
  /\ written_addresses
       (snd (invocation
               (fleet_world ["198.51.100.2"; "198.51.100.3"] [] (Ok tt))
               Examples.zone Examples.host Examples.group
               launching_event PNone))
     = [[Some "203.0.113.10"]].
Proof.
  split; [reflexivity|].
  apply (@launching_writes_new_address_alone
           (fleet_world ["198.51.100.2"; "198.51.100.3"] [] (Ok tt))
           Examples.zone Examples.host Examples.group launching_event PNone
           (PStr "i-0aaa") (PStr "dns-hook") (Some "203.0.113.10")).
  - reflexivity.
  - reflexivity.
  - reflexivity.
  - reflexivity.
  - reflexivity.
  - intros l z. eexists. reflexivity.
Defined.

Lemma terminating_never_writes_witness :
  recognized terminating_event = Ok true
  /\ written_addresses
       (snd (invocation
               (fleet_world ["203.0.113.10"; "198.51.100.3"] [] (Ok tt))
               Examples.zone Examples.host Examples.group
               terminating_event PNone))
     = []
  /\ acknowledged
       (snd (invocation
               (fleet_world ["203.0.113.10"; "198.51.100.3"] [] (Ok tt))
               Examples.zone Examples.host Examples.group
               terminating_event PNone))
     = [].
Proof.
  split; [reflexivity|].
  apply (@terminating_never_writes
           (fleet_world ["203.0.113.10"; "198.51.100.3"] [] (Ok tt))
           Examples.zone Examples.host Examples.group
           terminating_event PNone);
    reflexivity.
Defined.

(** X25: an event that is [None], a bool or a number cannot be tested for
    the member [source]: the handler prints the [TypeError], calls no
    collaborator and returns the empty string. *)
Theorem scalar_event_calls_nothing
        (w : World) (zone host group : option string)
        (context : pyval) (b : bool) (n : nat) :
  invocation w zone host group PNone context
  = (Ok "", [Printed (ExceptionLine TypeError)])
  /\ invocation w zone host group (PBool b) context
     = (Ok "", [Printed (ExceptionLine TypeError)])
  /\ invocation w zone host group (PNum n) context
     = (Ok "", [Printed (ExceptionLine TypeError)]).
Proof.
  repeat split; reflexivity.
Qed.

(** X26: the test guards the member [source] only.  A dict event whose
    source is [aws.autoscaling] and that has no [detail-type], or that has
    the expected [detail-type] and no [detail], raises [KeyError] in the
    test: the handler prints it and calls no collaborator, so the record
    set is not reconciled either. *)
Theorem missing_event_member_calls_nothing
        (w : World) (zone host group : option string)
        (entries : list (string * pyval)) (context : pyval) :
  lookup "source" entries = Some (PStr "aws.autoscaling") ->
  (lookup "detail-type" entries = None ->
   invocation w zone host group (PDict entries) context
   = (Ok "", [Printed (ExceptionLine (KeyError "detail-type"))]))
  /\ (lookup "detail-type" entries
      = Some (PStr "EC2 Instance-launch Lifecycle Action") ->
      lookup "detail" entries = None ->
      invocation w zone host group (PDict entries) context
      = (Ok "", [Printed (ExceptionLine (KeyError "detail"))])).
Proof.
  intros Hsource.
  unfold invocation, lambda_handler, finally_return, try_except_Exception,
    handler_body, recognized, and_then, py_in, subscript.
  unfold bind at 1, lift at 1. rewrite Hsource.
  change (py_eq_str (PStr "aws.autoscaling") "aws.autoscaling") with true.
  cbn [negb].
  split.
  - intros ->. reflexivity.
  - intros -> ->. reflexivity.
Qed.

Lemma missing_event_member_calls_nothing_witness :
  lookup "source"
         [("source", PStr "aws.autoscaling");
          ("detail-type", PStr "EC2 Instance-launch Lifecycle Action")]
  = Some (PStr "aws.autoscaling")
  /\ invocation (fleet_world [] ["i-0aaa"] (Ok tt))
                Examples.zone Examples.host Examples.group
                (PDict [("source", PStr "aws.autoscaling")]) PNone
     = (Ok "", [Printed (ExceptionLine (KeyError "detail-type"))])
  /\ invocation (fleet_world [] ["i-0aaa"] (Ok tt))
                Examples.zone Examples.host Examples.group
                (PDict [("source", PStr "aws.autoscaling");
                        ("detail-type",
                         PStr "EC2 Instance-launch Lifecycle Action")])
                PNone
     = (Ok "", [Printed (ExceptionLine (KeyError "detail"))]).
Proof.
  split; [reflexivity|].
  split.
  - apply (proj1 (@missing_event_member_calls_nothing
                    (fleet_world [] ["i-0aaa"] (Ok tt))
                    Examples.zone Examples.host Examples.group
                    [("source", PStr "aws.autoscaling")] PNone eq_refl)).
    reflexivity.
  - apply (proj2 (@missing_event_member_calls_nothing
                    (fleet_world [] ["i-0aaa"] (Ok tt))
                    Examples.zone Examples.host Examples.group
                    [("source", PStr "aws.autoscaling");
                     ("detail-type",
                      PStr "EC2 Instance-launch Lifecycle Action")]
                    PNone eq_refl)); reflexivity.
Defined.

End InvocationFacts.
